(** * Ehipay backend: idempotent payment intents and webhook ingestion

    A shallow embedding of [src/backend.js]: the two handlers
    [POST /v1/webhooks/stripe] and [POST /v1/payment_intents], the SQL
    statements they send to the store, and the calls they make to the
    payment processor.  Each [await query(...)] is one atomic store
    statement; a handler is a sequence of such statements, so that both a
    run to completion and an interleaving of two requests can be
    evaluated, with or without statements that the store rejects.  The
    lookup [GET /v1/payments/:provider_id] and the list of allowed origins
    of the CORS middleware are embedded as well. *)

From Stdlib Require Import String Ascii List ZArith Lia Bool.
Import ListNotations.
Local Open Scope string_scope.
Local Open Scope list_scope.

(** ** Values of a parsed JSON body *)

(** What [req.body.amount_cents] can be after [express.json()]: the
    handler only asks [Number.isInteger] of it and compares it with 0. *)
Inductive json_value : Type :=
| JUndefined
| JNull
| JBool (b : bool)
| JString (s : string)
| JInteger (z : Z)      (* a number with an integral value *)
| JFraction             (* a number that is not integral *)
| JObject.              (* an object or an array *)

Definition Number_isInteger (v : json_value) : bool :=
  match v with JInteger _ => true | _ => false end.

(** ** The relational store *)

Module Store.

(** Rows of the five tables.  Columns filled by the store itself (serial
    identifiers, [created_at], [updated_at]) are left out: no handler
    reads them. *)

Record account : Type := mk_account
  { acc_id : string; acc_name : string; acc_type : string }.

Record transaction : Type := mk_transaction
  { debit_account : string; credit_account : string;
    tx_amount_cents : Z; tx_currency : string; external_ref : string }.

Record payment_intent : Type := mk_payment_intent
  { provider : string; provider_id : string;
    pi_amount_cents : Z; pi_currency : string; pi_status : string }.

(** The response of [POST /v1/payment_intents], also the [response_json]
    column. *)
Record intent_response : Type := mk_intent_response
  { resp_id : string; resp_client_secret : string; resp_status : string }.

Record idempotency_key : Type := mk_idempotency_key
  { idem_key : string; idem_endpoint : string;
    response_json : intent_response }.

Record webhook_event : Type := mk_webhook_event
  { event_id : string; event_type : string; payload_hash : string }.

Record database : Type := mk_database
  { accounts : list account;
    transactions : list transaction;
    payment_intents : list payment_intent;
    idempotency_keys : list idempotency_key;
    webhook_events : list webhook_event }.

Definition empty : database := mk_database [] [] [] [] [].

(** The message of the error a statement raises when it breaks a
    uniqueness constraint. *)
Definition unique_violation : string :=
  "duplicate key value violates unique constraint".

(** *** Uniqueness constraints

    The table declarations are not among the sources; the four
    constraints below are the ones of the persisted state layout, and no
    other constraint is taken to hold. *)

(** Modelled from the spec: [webhook_events] is unique on the event id
    (section 6); the table declaration is missing. *)
Definition event_id_taken (eid : string) (d : database) : bool :=
  existsb (fun r => event_id r =? eid) (webhook_events d).

(** Modelled from the spec: [idempotency_keys] is unique on key and
    operation (section 6); the table declaration is missing. *)
Definition key_endpoint_taken (k ep : string) (d : database) : bool :=
  existsb (fun x => (idem_key x =? k) && (idem_endpoint x =? ep))
          (idempotency_keys d).

(** Modelled from the spec: [payment_intents] is unique on the
    processor-assigned id (section 6), as [ON CONFLICT (provider_id)]
    requires; the table declaration is missing. *)
Definition provider_id_taken (pid : string) (d : database) : bool :=
  existsb (fun r => provider_id r =? pid) (payment_intents d).

(** Modelled from the spec: an account's identifier is a unique token
    (section 3); the table declaration is missing. *)
Definition account_id_taken (id : string) (d : database) : bool :=
  existsb (fun a => acc_id a =? id) (accounts d).

(** *** The statements of the handlers *)

(** [SELECT 1 FROM webhook_events WHERE event_id=$1]: the matching rows. *)
Definition select_webhook_event (eid : string) (d : database)
  : list webhook_event :=
  filter (fun r => event_id r =? eid) (webhook_events d).

(** [INSERT INTO payment_intents ... VALUES ('stripe',$1,$2,$3,'succeeded')
     ON CONFLICT (provider_id) DO UPDATE SET status='succeeded'] *)
Definition upsert_payment_intent_succeeded
    (pid : string) (amount : Z) (cur : string) (d : database) : database :=
  let rows := payment_intents d in
  let rows' :=
    if provider_id_taken pid d
    then map (fun r =>
                if provider_id r =? pid
                then mk_payment_intent (provider r) (provider_id r)
                       (pi_amount_cents r) (pi_currency r) "succeeded"
                else r) rows
    else rows ++ [mk_payment_intent "stripe" pid amount cur "succeeded"] in
  mk_database (accounts d) (transactions d) rows'
              (idempotency_keys d) (webhook_events d).

(** [SELECT id FROM accounts WHERE type='platform_escrow' LIMIT 1] *)
Definition select_platform_escrow (d : database) : list string :=
  firstn 1 (map acc_id
              (filter (fun a => acc_type a =? "platform_escrow")
                      (accounts d))).

(** [INSERT INTO accounts (id,name,type) VALUES ($1,$2,'customer')
     ON CONFLICT DO NOTHING] *)
Definition insert_customer_account (id name : string) (d : database)
  : database :=
  if account_id_taken id d then d
  else mk_database (accounts d ++ [mk_account id name "customer"])
                   (transactions d) (payment_intents d)
                   (idempotency_keys d) (webhook_events d).

(** [INSERT INTO transactions (debit_account, credit_account,
     amount_cents, currency, external_ref) VALUES ($1,$2,$3,$4,$5)] *)
Definition insert_transaction (t : transaction) (d : database) : database :=
  mk_database (accounts d) (transactions d ++ [t]) (payment_intents d)
              (idempotency_keys d) (webhook_events d).

(** [INSERT INTO webhook_events (event_id, type, payload_hash)
     VALUES ($1,$2,$3)] *)
Definition insert_webhook_event (e : webhook_event) (d : database)
  : string + database :=
  if event_id_taken (event_id e) d
  then inl unique_violation
  else inr (mk_database (accounts d) (transactions d) (payment_intents d)
                        (idempotency_keys d) (webhook_events d ++ [e])).

(** [SELECT response_json FROM idempotency_keys
     WHERE key=$1 AND endpoint=$2] *)
Definition select_idempotency_key (k ep : string) (d : database)
  : list intent_response :=
  map response_json
      (filter (fun r => (idem_key r =? k) && (idem_endpoint r =? ep))
              (idempotency_keys d)).

(** [INSERT INTO payment_intents ... VALUES ('stripe',$1,$2,$3,$4)
     ON CONFLICT (provider_id) DO NOTHING] *)
Definition insert_payment_intent
    (pid : string) (amount : Z) (cur st : string) (d : database)
  : database :=
  if provider_id_taken pid d then d
  else mk_database (accounts d) (transactions d)
                   (payment_intents d
                      ++ [mk_payment_intent "stripe" pid amount cur st])
                   (idempotency_keys d) (webhook_events d).

(** [INSERT INTO idempotency_keys (key, endpoint, response_json)
     VALUES ($1,$2,$3)]: no [ON CONFLICT] clause. *)
Definition insert_idempotency_key
    (k ep : string) (r : intent_response) (d : database)
  : string + database :=
  if key_endpoint_taken k ep d
  then inl unique_violation
  else inr (mk_database (accounts d) (transactions d) (payment_intents d)
                        (idempotency_keys d ++ [mk_idempotency_key k ep r])
                        (webhook_events d)).

End Store.

Import Store.

(** ** Requests, responses and processor objects *)

(** The body of a response: [{ok: true}] or [{ok: true, deduped: true}],
    a text, [{error: ...}], or [{id, client_secret, status}]. *)
Inductive body : Type :=
| Ack (deduped : bool)
| Text (s : string)
| JsonError (error : string)
| JsonIntent (r : intent_response).

Record response : Type := mk_response { status : nat; payload : body }.

Record webhook_request : Type := mk_webhook_request
  { raw_body : list Byte.byte;               (* express.raw *)
    stripe_signature : option string }.      (* req.headers["stripe-signature"] *)

Record intent_request : Type := mk_intent_request
  { amount_cents : json_value;
    currency : option string;                (* defaults to "usd" *)
    metadata : option (list (string * string)); (* defaults to {} *)
    idempotency_header : option string }.    (* req.header("Idempotency-Key") *)

(** The processor's payment intent, as far as the handlers read it. *)
Record stripe_payment_intent : Type := mk_stripe_payment_intent
  { spi_id : string; spi_amount_received : Z; spi_currency : string;
    spi_customer : option string; spi_client_secret : string;
    spi_status : string }.

(** A verified event; [ev_object] is [event.data.object]. *)
Record stripe_event : Type := mk_stripe_event
  { ev_id : string; ev_type : string; ev_object : stripe_payment_intent }.

(** The arguments of [stripe.paymentIntents.create]. *)
Record create_params : Type := mk_create_params
  { cp_amount : Z; cp_currency : string;
    cp_metadata : list (string * string); cp_idempotencyKey : string }.

(** ** Handlers as sequences of atomic effects *)

(** One effect of a handler: a store statement, a processor call or a
    draw of [crypto.randomUUID()], indexed by what it returns. *)
Inductive cmd : Type -> Type :=
| SelectWebhookEvent (eid : string) : cmd (list webhook_event)
| UpsertPaymentIntentSucceeded (pid : string) (amount : Z) (cur : string)
  : cmd unit
| SelectPlatformEscrow : cmd (list string)
| RandomUUID : cmd string
| InsertCustomerAccount (id name : string) : cmd unit
| InsertTransaction (t : transaction) : cmd unit
| InsertWebhookEvent (e : webhook_event) : cmd unit
| SelectIdempotencyKey (k ep : string) : cmd (list intent_response)
| PaymentIntentsCreate (p : create_params) : cmd stripe_payment_intent
| InsertPaymentIntent (pid : string) (amount : Z) (cur st : string)
  : cmd unit
| InsertIdempotencyKey (k ep : string) (r : intent_response) : cmd unit.

(** An [async] function body: it returns, throws, or awaits an effect and
    goes on with its result. *)
Inductive prog (R : Type) : Type :=
| Ret (r : R)
| Throw (message : string)
| Do (A : Type) (c : cmd A) (k : A -> prog R).

Arguments Ret {R} r.
Arguments Throw {R} message.
Arguments Do {R A} c k.

Fixpoint bind {A B : Type} (p : prog A) (f : A -> prog B) : prog B :=
  match p with
  | Ret a => f a
  | Throw m => Throw m
  | Do c k => Do c (fun x => bind (k x) f)
  end.

Notation "x <- c ;; k" := (Do c (fun x => k))
  (at level 61, c at next level, right associativity).
Notation "'await' c ;; k" := (Do c (fun _ => k))
  (at level 61, c at next level, right associativity).

(** What a request can see and change: the store, the calls made to the
    processor so far, and how many UUIDs have been drawn. *)
Record world : Type := mk_world
  { db : database;
    remote_calls : list create_params;
    uuid_draws : nat }.

Definition set_db (w : world) (d : database) : world :=
  mk_world d (remote_calls w) (uuid_draws w).

Section Backend.

(** The collaborators the module imports.  [constructEvent] either throws
    (left, with [err.message]) or returns the verified event;
    [paymentIntents_create] answers from the calls made before and the
    present one, and throws when the processor call fails. *)
Variable constructEvent :
  list Byte.byte -> option string -> option string -> string + stripe_event.
Variable STRIPE_WEBHOOK_SECRET : option string.
Variable sha256_hex : list Byte.byte -> string.
Variable paymentIntents_create :
  list create_params -> create_params -> string + stripe_payment_intent.
Variable randomUUID : nat -> string.

(** One effect, performed atomically on the world. *)
Definition exec {A : Type} (c : cmd A) (w : world) : world * (string + A) :=
  match c in cmd T return world * (string + T) with
  | SelectWebhookEvent eid => (w, inr (select_webhook_event eid (db w)))
  | UpsertPaymentIntentSucceeded pid amount cur =>
      (set_db w (upsert_payment_intent_succeeded pid amount cur (db w)),
       inr tt)
  | SelectPlatformEscrow => (w, inr (select_platform_escrow (db w)))
  | RandomUUID =>
      (mk_world (db w) (remote_calls w) (S (uuid_draws w)),
       inr (randomUUID (uuid_draws w)))
  | InsertCustomerAccount id name =>
      (set_db w (insert_customer_account id name (db w)), inr tt)
  | InsertTransaction t => (set_db w (insert_transaction t (db w)), inr tt)
  | InsertWebhookEvent e =>
      match insert_webhook_event e (db w) with
      | inl m => (w, inl m)
      | inr d => (set_db w d, inr tt)
      end
  | SelectIdempotencyKey k ep =>
      (w, inr (select_idempotency_key k ep (db w)))
  | PaymentIntentsCreate p =>
      (mk_world (db w) (remote_calls w ++ [p]) (uuid_draws w),
       paymentIntents_create (remote_calls w) p)
  | InsertPaymentIntent pid amount cur st =>
      (set_db w (insert_payment_intent pid amount cur st (db w)), inr tt)
  | InsertIdempotencyKey k ep r =>
      match insert_idempotency_key k ep r (db w) with
      | inl m => (w, inl m)
      | inr d => (set_db w d, inr tt)
      end
  end.

(** A body run to its end with no other request in between. *)
Fixpoint run {R : Type} (p : prog R) (w : world) : world * (string + R) :=
  match p with
  | Ret r => (w, inr r)
  | Throw m => (w, inl m)
  | Do c k =>
      let (w', a) := exec c w in
      match a with
      | inl m => (w', inl m)
      | inr x => run (k x) w'
      end
  end.

(** One [await] of a body: the scheduler may run another request after
    it. *)
Definition step {R : Type} (p : prog R) (w : world) : prog R * world :=
  match p with
  | Do c k =>
      let (w', a) := exec c w in
      (match a with inl m => Throw m | inr x => k x end, w')
  | _ => (p, w)
  end.

(** Two requests in flight; [true] lets the first one take a step. *)
Fixpoint interleave {R : Type} (schedule : list bool)
    (p q : prog R) (w : world) : prog R * prog R * world :=
  match schedule with
  | [] => (p, q, w)
  | true :: s => let (p', w') := step p w in interleave s p' q w'
  | false :: s => let (q', w') := step q w in interleave s p q' w'
  end.

(** [try { body } catch (err) { on_error(err.message) }] *)
Definition try_catch (p : prog response) (on_error : string -> response)
    (w : world) : world * response :=
  let (w', r) := run p w in
  (w', match r with inl m => on_error m | inr x => x end).

(** *** [POST /v1/webhooks/stripe] *)

Definition webhooks_stripe (req : webhook_request) : prog response :=
  let sig := stripe_signature req in
  match constructEvent (raw_body req) sig STRIPE_WEBHOOK_SECRET with
  | inl message => Throw message
  | inr event =>
      let payloadHash := sha256_hex (raw_body req) in
      existed <- SelectWebhookEvent (ev_id event) ;;
      if (0 <? length existed)%nat then Ret (mk_response 200 (Ack true))
      else
        bind
          (if ev_type event =? "payment_intent.succeeded" then
             let pi := ev_object event in
             await UpsertPaymentIntentSucceeded
                     (spi_id pi) (spi_amount_received pi) (spi_currency pi) ;;
             escrow <- SelectPlatformEscrow ;;
             customerAccountId <- RandomUUID ;;
             await InsertCustomerAccount customerAccountId
                     ("Customer " ++ match spi_customer pi with
                                     | Some c => c
                                     | None => "anon"
                                     end) ;;
             match escrow with
             | [] => Throw "Cannot read properties of undefined (reading 'id')"
             | escrow0 :: _ =>
                 await InsertTransaction
                         (mk_transaction customerAccountId escrow0
                            (spi_amount_received pi) (spi_currency pi)
                            (spi_id pi)) ;;
                 Ret tt
             end
           else if ev_type event =? "charge.refunded" then Ret tt
           else Ret tt)
          (fun _ =>
             await InsertWebhookEvent
                     (mk_webhook_event (ev_id event) (ev_type event)
                        payloadHash) ;;
             Ret (mk_response 200 (Ack false)))
  end.

Definition webhook_error (message : string) : response :=
  mk_response 400 (Text ("Webhook Error: " ++ message)).

Definition post_webhooks_stripe (req : webhook_request) (w : world)
  : world * response :=
  try_catch (webhooks_stripe req) webhook_error w.

(** *** [POST /v1/payment_intents] *)

Definition endpoint : string := "/v1/payment_intents".

(** [!idem] is false exactly for a header that is present and not empty. *)
Definition truthy (h : option string) : bool :=
  match h with
  | Some s => negb (s =? "")
  | None => false
  end.

Definition header_value (h : option string) : string :=
  match h with Some s => s | None => "" end.

Definition integer_value (v : json_value) : Z :=
  match v with JInteger z => z | _ => 0%Z end.

Definition payment_intents (req : intent_request) : prog response :=
  let amount := amount_cents req in
  let cur := match currency req with Some c => c | None => "usd" end in
  let meta := match metadata req with Some m => m | None => [] end in
  let idem := idempotency_header req in
  if negb (truthy idem)
  then Ret (mk_response 400 (JsonError "Missing Idempotency-Key"))
  else if negb (Number_isInteger amount) || (integer_value amount <=? 0)%Z
  then Ret (mk_response 400
              (JsonError "amount_cents must be a positive integer"))
  else
    found <- SelectIdempotencyKey (header_value idem) endpoint ;;
    match found with
    | row0 :: _ => Ret (mk_response 200 (JsonIntent row0))
    | [] =>
        pi <- PaymentIntentsCreate
                (mk_create_params (integer_value amount) cur meta
                   (header_value idem)) ;;
        await InsertPaymentIntent (spi_id pi) (integer_value amount) cur
                (spi_status pi) ;;
        let resp := mk_intent_response (spi_id pi) (spi_client_secret pi)
                      (spi_status pi) in
        await InsertIdempotencyKey (header_value idem) endpoint resp ;;
        Ret (mk_response 200 (JsonIntent resp))
    end.

Definition intent_error (_ : string) : response :=
  mk_response 500 (JsonError "Failed to create payment intent").

Definition post_payment_intents (req : intent_request) (w : world)
  : world * response :=
  try_catch (payment_intents req) intent_error w.

(** The same webhook delivered [n] times, one delivery after the other. *)
Fixpoint deliver (n : nat) (req : webhook_request) (w : world)
  : world * list response :=
  match n with
  | O => (w, [])
  | S n' =>
      let (w1, r) := post_webhooks_stripe req w in
      let (w2, rs) := deliver n' req w1 in
      (w2, r :: rs)
  end.

End Backend.

(** ** Observations on the store *)

(** The Idempotency Cache's lookup: the handler's [SELECT] and its
    [found.rows[0]]. *)
Definition lookup (k ep : string) (d : database) : option intent_response :=
  hd_error (select_idempotency_key k ep d).

(** The Event Deduplicator's check: [existed.rowCount] is not zero. *)
Definition has_processed (eid : string) (d : database) : bool :=
  (0 <? length (select_webhook_event eid d))%nat.

Definition account_exists (id : string) (d : database) : bool :=
  existsb (fun a => acc_id a =? id) (accounts d).

(** Every transaction at rest debits and credits accounts of the store. *)
Definition ledger_references_accounts (d : database) : bool :=
  forallb (fun t => account_exists (debit_account t) d
                    && account_exists (credit_account t) d)
          (transactions d).

(** The second validation of [POST /v1/payment_intents] lets the request
    through. *)
Definition positive_integer (v : json_value) : bool :=
  Number_isInteger v && (0 <? integer_value v)%Z.

(** A request that passes both validations, and the key it carries. *)
Definition valid (req : intent_request) : Prop :=
  truthy (idempotency_header req) = true
  /\ positive_integer (amount_cents req) = true.

Definition key_of (req : intent_request) : string :=
  header_value (idempotency_header req).

Definition succeeded (ev : stripe_event) : bool :=
  ev_type ev =? "payment_intent.succeeded".

(** The ledger entry of a payment: customer to platform escrow. *)
Definition ledger_entry (customer escrow : string)
    (pi : stripe_payment_intent) : transaction :=
  mk_transaction customer escrow (spi_amount_received pi)
                 (spi_currency pi) (spi_id pi).

(** ** [GET /v1/payments/:provider_id] *)

(** The columns the lookup returns; [created_at] comes with them in the
    source and is left out here like every timestamp. *)
Record payment_view : Type := mk_payment_view
  { view_provider_id : string; view_amount_cents : Z;
    view_currency : string; view_status : string }.

(** [SELECT provider_id, amount_cents, currency, status, created_at
     FROM payment_intents WHERE provider_id=$1] *)
Definition select_payment (pid : string) (d : database)
  : list payment_view :=
  map (fun r => mk_payment_view (provider_id r) (pi_amount_cents r)
                                (pi_currency r) (pi_status r))
      (filter (fun r => provider_id r =? pid) (Store.payment_intents d)).

Inductive payment_body : Type :=
| PaymentError (error : string)
| PaymentRow (row : payment_view).

Record payment_response : Type := mk_payment_response
  { payment_status : nat; payment_payload : payment_body }.

(** The handler: one [SELECT], then 404 or the first row. *)
Definition get_payments (pid : string) (w : world)
  : world * payment_response :=
  (w, match select_payment pid (db w) with
      | [] => mk_payment_response 404 (PaymentError "Not found")
      | row0 :: _ => mk_payment_response 200 (PaymentRow row0)
      end).

(** ** The allowed origins of the CORS middleware *)

(** A character of a string stands for the UTF-16 code unit of the same
    number; the white space of [trim] below 256 is TAB, LF, VT, FF, CR,
    SP and NBSP. *)
Definition is_white_space (c : ascii) : bool :=
  let n := nat_of_ascii c in
  ((9 <=? n) && (n <=? 13) || (n =? 32) || (n =? 160))%nat.

Definition is_comma (c : ascii) : bool := Ascii.eqb c ",".

(** [s.split(",")]: the pieces between the commas, at least one. *)
Fixpoint split_comma (s : string) : list string :=
  match s with
  | EmptyString => [EmptyString]
  | String c s' =>
      if is_comma c then EmptyString :: split_comma s'
      else match split_comma s' with
           | piece :: pieces => String c piece :: pieces
           | [] => [String c EmptyString]
           end
  end.

Fixpoint trimStart (s : string) : string :=
  match s with
  | EmptyString => EmptyString
  | String c s' => if is_white_space c then trimStart s' else s
  end.

Fixpoint trimEnd (s : string) : string :=
  match s with
  | EmptyString => EmptyString
  | String c s' =>
      match trimEnd s' with
      | EmptyString =>
          if is_white_space c then EmptyString else String c EmptyString
      | rest => String c rest
      end
  end.

(** [s.trim()] *)
Definition trim (s : string) : string := trimEnd (trimStart s).

(** [(process.env.ALLOWED_ORIGINS || "").split(",").map(s => s.trim())
     .filter(Boolean)] *)
Definition origins (ALLOWED_ORIGINS : option string) : list string :=
  filter (fun s => negb (s =? ""))
         (map trim
              (split_comma
                 (match ALLOWED_ORIGINS with Some s => s | None => "" end))).

(** The [origin] option given to [cors]: the list, or [true] when it is
    empty. *)
Inductive cors_origin : Type :=
| OriginTrue
| OriginList (allowed : list string).

Definition cors_origin_option (ALLOWED_ORIGINS : option string)
  : cors_origin :=
  match origins ALLOWED_ORIGINS with
  | [] => OriginTrue
  | allowed => OriginList allowed
  end.

(** ** More observations *)

Fixpoint comma_free (s : string) : bool :=
  match s with
  | EmptyString => true
  | String c s' => negb (is_comma c) && comma_free s'
  end.

(** Only commas and white space. *)
Fixpoint blank (s : string) : bool :=
  match s with
  | EmptyString => true
  | String c s' => (is_comma c || is_white_space c) && blank s'
  end.

(** An origin as the middleware keeps it. *)
Definition clean_origin (s : string) : Prop :=
  s <> "" /\ comma_free s = true /\ trim s = s.

(** A mirror row of [d] is still in [d'], with its amount and currency,
    and with its status or "succeeded". *)
Definition mirror_kept (d d' : database) : Prop :=
  forall r, In r (Store.payment_intents d) ->
  exists r', In r' (Store.payment_intents d')
             /\ provider r' = provider r
             /\ provider_id r' = provider_id r
             /\ pi_amount_cents r' = pi_amount_cents r
             /\ pi_currency r' = pi_currency r
             /\ (pi_status r' = pi_status r \/ pi_status r' = "succeeded").

(** Nothing is taken away: the accounts, the ledger, the cache and the
    processed events of [d] open those of [d'], and the mirror is kept. *)
Definition store_grows (d d' : database) : Prop :=
  (exists l, accounts d' = accounts d ++ l)
  /\ (exists l, transactions d' = transactions d ++ l)
  /\ (exists l, idempotency_keys d' = idempotency_keys d ++ l)
  /\ (exists l, webhook_events d' = webhook_events d ++ l)
  /\ mirror_kept d d'.

(** What [POST /v1/payment_intents] hands to the processor. *)
Definition params_of (req : intent_request) : create_params :=
  mk_create_params (integer_value (amount_cents req))
    (match currency req with Some c => c | None => "usd" end)
    (match metadata req with Some m => m | None => [] end)
    (key_of req).

Definition validb (req : intent_request) : bool :=
  truthy (idempotency_header req) && positive_integer (amount_cents req).

Definition customer_name (pi : stripe_payment_intent) : string :=
  "Customer " ++ match spi_customer pi with
                 | Some c => c
                 | None => "anon"
                 end.

(** ** Statements the store rejects *)

(** Every [await query(...)] can reject: the store is unreachable, a
    value does not fit its column, a constraint of the table refuses the
    row.  The handlers catch the rejection like any other exception.  A
    rejected statement writes nothing. *)

(** The effects that go through [query]. *)
Definition is_query {A : Type} (c : cmd A) : bool :=
  match c with
  | RandomUUID => false
  | PaymentIntentsCreate _ => false
  | _ => true
  end.

(** What the store does with the statements to come, in the order they
    are issued: [Some m] rejects the statement with the message [m],
    [None] hands it to the tables; past the end of the plan every
    statement is handed to the tables. *)
Definition plan : Type := list (option string).

(** No statement of the plan is rejected. *)
Definition accepting (f : plan) : bool :=
  forallb (fun x => match x with None => true | Some _ => false end) f.

(** An [INSERT INTO transactions] names two accounts of the store. *)
Definition posting_ok {A : Type} (c : cmd A) (d : database) : bool :=
  match c with
  | InsertTransaction t =>
      account_exists (debit_account t) d
      && account_exists (credit_account t) d
  | _ => true
  end.

(** The same of the statement a body is about to issue. *)
Definition next_posting_ok {R : Type} (p : prog R) (d : database) : bool :=
  match p with
  | Do c _ => posting_ok c d
  | _ => true
  end.

(** The world and the answer a request under a plan ends with. *)
Definition world_of {R : Type} (x : plan * world * R) : world :=
  snd (fst x).

Definition answer_of {R : Type} (x : plan * world * R) : R := snd x.

Inductive request : Type :=
| Delivery (req : webhook_request)
| Creation (req : intent_request).

Section Rejections.

Variable constructEvent :
  list Byte.byte -> option string -> option string -> string + stripe_event.
Variable STRIPE_WEBHOOK_SECRET : option string.
Variable sha256_hex : list Byte.byte -> string.
Variable paymentIntents_create :
  list create_params -> create_params -> string + stripe_payment_intent.
Variable randomUUID : nat -> string.

(** One effect under a plan: a rejected statement throws and leaves the
    world as it is, any other effect is [exec]. *)
Definition exec_under {A : Type} (f : plan) (c : cmd A) (w : world)
  : plan * world * (string + A) :=
  let done := exec paymentIntents_create randomUUID c w in
  if is_query c then
    match f with
    | Some m :: rest => (rest, w, inl m)
    | None :: rest => (rest, fst done, snd done)
    | [] => ([], fst done, snd done)
    end
  else (f, fst done, snd done).

Fixpoint run_under {R : Type} (f : plan) (p : prog R) (w : world)
  : plan * world * (string + R) :=
  match p with
  | Ret r => (f, w, inr r)
  | Throw m => (f, w, inl m)
  | Do c k =>
      let '(f', w', a) := exec_under f c w in
      match a with
      | inl m => (f', w', inl m)
      | inr x => run_under f' (k x) w'
      end
  end.

Definition step_under {R : Type} (f : plan) (p : prog R) (w : world)
  : plan * prog R * world :=
  match p with
  | Do c k =>
      let '(f', w', a) := exec_under f c w in
      (f', match a with inl m => Throw m | inr x => k x end, w')
  | _ => (f, p, w)
  end.

Definition try_catch_under (f : plan) (p : prog response)
    (on_error : string -> response) (w : world)
  : plan * world * response :=
  let '(f', w', r) := run_under f p w in
  (f', w', match r with inl m => on_error m | inr x => x end).

Definition post_webhooks_stripe_under (f : plan) (req : webhook_request)
    (w : world) : plan * world * response :=
  try_catch_under f
    (webhooks_stripe constructEvent STRIPE_WEBHOOK_SECRET sha256_hex req)
    webhook_error w.

Definition post_payment_intents_under (f : plan) (req : intent_request)
    (w : world) : plan * world * response :=
  try_catch_under f (payment_intents req) intent_error w.

(** The same webhook delivered [n] times in a row, under a plan. *)
Fixpoint deliver_under (n : nat) (f : plan) (req : webhook_request)
    (w : world) : plan * world * list response :=
  match n with
  | O => (f, w, [])
  | S n' =>
      let '(f1, w1, r) := post_webhooks_stripe_under f req w in
      let '(f2, w2, rs) := deliver_under n' f1 req w1 in
      (f2, w2, r :: rs)
  end.

Definition handler_body (r : request) : prog response :=
  match r with
  | Delivery req =>
      webhooks_stripe constructEvent STRIPE_WEBHOOK_SECRET sha256_hex req
  | Creation req => payment_intents req
  end.

(** Two requests in flight under a plan: every [INSERT INTO transactions]
    that is issued finds both its accounts in the store of that
    moment. *)
Fixpoint postings_sound (f : plan) (schedule : list bool)
    (p q : prog response) (w : world) : bool :=
  match schedule with
  | [] => true
  | true :: s =>
      next_posting_ok p (db w)
      && (let '(f', p', w') := step_under f p w in
          postings_sound f' s p' q w')
  | false :: s =>
      next_posting_ok q (db w)
      && (let '(f', q', w') := step_under f q w in
          postings_sound f' s p q' w')
  end.

(** A body that posts soundly from [d] on, whatever is added to the store
    between its statements. *)
Fixpoint robust {R : Type} (p : prog R) (d : database) : Prop :=
  match p with
  | Do c k =>
      forall w, store_grows d (db w) ->
        posting_ok c (db w) = true
        /\ forall x w',
             exec paymentIntents_create randomUUID c w = (w', inr x) ->
             robust (k x) (db w')
  | _ => True
  end.

End Rejections.

(** ** A concrete deployment, for the scenarios *)

Module Scenario.

Definition secret : option string := Some "whsec_test".

Definition pi_X : stripe_payment_intent :=
  mk_stripe_payment_intent "pi_X" 2500 "usd" (Some "cus_1")
                           "pi_X_secret" "succeeded".

Definition pi_Z : stripe_payment_intent :=
  mk_stripe_payment_intent "pi_Z" 0 "usd" None "pi_Z_secret" "succeeded".

(** A stand-in for the processor's library: the signature ["v1=good"]
    verifies under [secret]; the first byte of the payload names the
    event. *)
Definition constructEvent (payload : list Byte.byte)
    (sig secret' : option string) : string + stripe_event :=
  match sig, secret' with
  | Some "v1=good", Some "whsec_test" =>
      match payload with
      | Byte.x31 :: _ =>
          inr (mk_stripe_event "evt_1" "payment_intent.succeeded" pi_X)
      | Byte.x32 :: _ => inr (mk_stripe_event "evt_2" "charge.refunded" pi_X)
      | Byte.x30 :: _ =>
          inr (mk_stripe_event "evt_0" "payment_intent.succeeded" pi_Z)
      | _ => inl "Unexpected end of JSON input"
      end
  | _, _ =>
      inl "No signatures found matching the expected signature for payload"
  end.

Definition sha256_hex (payload : list Byte.byte) : string :=
  match payload with
  | Byte.x31 :: _ => "6b86b273ff34fce1"
  | _ => "e3b0c44298fc1c14"
  end.

(** The processor is down for the key ["k_down"]; otherwise it answers
    with an intent named after the idempotency token. *)
Definition paymentIntents_create (_ : list create_params)
    (p : create_params) : string + stripe_payment_intent :=
  if cp_idempotencyKey p =? "k_down" then inl "connection to processor lost"
  else inr (mk_stripe_payment_intent ("pi_" ++ cp_idempotencyKey p) 0
              (cp_currency p) None
              ("secret_" ++ cp_idempotencyKey p) "requires_action").

Definition randomUUID (n : nat) : string :=
  match n with
  | O => "uuid-0"
  | S O => "uuid-1"
  | _ => "uuid-n"
  end.

Definition escrow_account : account :=
  mk_account "acct_escrow" "Platform Escrow" "platform_escrow".

Definition seeded : world :=
  mk_world (mk_database [escrow_account] [] [] [] []) [] 0.

Definition unseeded : world := mk_world Store.empty [] 0.

Definition good (payload : list Byte.byte) : webhook_request :=
  mk_webhook_request payload (Some "v1=good").

Definition evt_1 : webhook_request := good [Byte.x31].
Definition evt_2 : webhook_request := good [Byte.x32].
Definition evt_0 : webhook_request := good [Byte.x30].
Definition forged : webhook_request :=
  mk_webhook_request [Byte.x31] (Some "v1=bad").

Definition intent (k : string) (amount : Z) : intent_request :=
  mk_intent_request (JInteger amount) (Some "usd") None (Some k).

Definition webhook : webhook_request -> world -> world * response :=
  post_webhooks_stripe constructEvent secret sha256_hex
                       paymentIntents_create randomUUID.

Definition create : intent_request -> world -> world * response :=
  post_payment_intents paymentIntents_create randomUUID.

(** Two deliveries in flight: both pass the dedup check before either
    records the event; then the first runs to its end, then the second. *)
Definition race : list bool :=
  [true; false] ++ repeat true 6 ++ repeat false 6.

Definition delivery (req : webhook_request) : prog response :=
  webhooks_stripe constructEvent secret sha256_hex req.

(** Two create requests in flight: both miss the cache before either
    stores its response. *)
Definition create_race : list bool :=
  [true; false] ++ repeat true 3 ++ repeat false 3.

Definition in_flight (schedule : list bool) (p q : prog response)
    (w : world) : prog response * prog response * world :=
  interleave paymentIntents_create randomUUID schedule p q w.

Definition R1 : intent_response :=
  mk_intent_response "pi_X" "pi_X_secret" "requires_action".
Definition R2 : intent_response :=
  mk_intent_response "pi_Y" "pi_Y_secret" "requires_action".

(** The worlds and answers the scenarios go through. *)
Definition stored_k1 : intent_response :=
  mk_intent_response "pi_k1" "secret_k1" "requires_action".

Definition first_k1 : world * response := create (intent "k1" 2500) seeded.

Definition retry_eur : intent_request :=
  mk_intent_request (JInteger 9900) (Some "eur") None (Some "k1").

Definition second_k1 : world * response := create retry_eur (fst first_k1).

Definition after_evt_1 : world * response := webhook evt_1 seeded.

Definition no_key : intent_request :=
  mk_intent_request (JInteger 2500) None None None.

Definition no_signature_match : string :=
  "No signatures found matching the expected signature for payload".

End Scenario.

(** More inputs, for the properties beyond the scenarios above. *)
Module Tour.

Definition allowed : option string :=
  Some " https://app.example , ,https://admin.example".

Definition app_origins : list string :=
  ["https://app.example"; "https://admin.example"].

(** A store that already mirrors "pi_k1" with another amount. *)
Definition mirrored : world :=
  mk_world
    (mk_database [Scenario.escrow_account] []
       [mk_payment_intent "stripe" "pi_k1" 700 "eur" "requires_action"]
       [] [])
    [] 0.

Definition answer_k1 : stripe_payment_intent :=
  mk_stripe_payment_intent "pi_k1" 0 "usd" None "secret_k1"
                           "requires_action".

Definition refund_event : stripe_event :=
  mk_stripe_event "evt_2" "charge.refunded" Scenario.pi_X.

Definition payment_event : stripe_event :=
  mk_stripe_event "evt_1" "payment_intent.succeeded" Scenario.pi_X.


(** The store rejects the sixth statement, the [INSERT INTO
    webhook_events] of the first delivery, and no other. *)
Definition record_rejected : plan :=
  repeat None 5 ++ [Some "could not connect to server"].

Definition webhook_under
  : plan -> webhook_request -> world -> plan * world * response :=
  post_webhooks_stripe_under Scenario.constructEvent Scenario.secret
    Scenario.sha256_hex Scenario.paymentIntents_create Scenario.randomUUID.

Definition create_under
  : plan -> intent_request -> world -> plan * world * response :=
  post_payment_intents_under Scenario.paymentIntents_create
    Scenario.randomUUID.

Definition deliveries_under
  : nat -> plan -> webhook_request -> world
    -> plan * world * list response :=
  deliver_under Scenario.constructEvent Scenario.secret
    Scenario.sha256_hex Scenario.paymentIntents_create Scenario.randomUUID.

End Tour.

Example scenario_first_delivery :
  let (w, r) := Scenario.webhook Scenario.evt_1 Scenario.seeded in
  r = mk_response 200 (Ack false)
  /\ transactions (db w)
     = [mk_transaction "uuid-0" "acct_escrow" 2500 "usd" "pi_X"]
  /\ webhook_events (db w)
     = [mk_webhook_event "evt_1" "payment_intent.succeeded"
                         "6b86b273ff34fce1"].
Proof. vm_compute. repeat split. Qed.

Example scenario_redelivery :
  let (w1, _) := Scenario.webhook Scenario.evt_1 Scenario.seeded in
  Scenario.webhook Scenario.evt_1 w1 = (w1, mk_response 200 (Ack true)).
Proof. vm_compute. reflexivity. Qed.

Example scenario_create_twice :
  let (w1, r1) := Scenario.create (Scenario.intent "k1" 2500) Scenario.seeded in
  let (w2, r2) := Scenario.create (Scenario.intent "k1" 2500) w1 in
  r1 = r2 /\ w2 = w1 /\ length (remote_calls w2) = 1%nat
  /\ r1 = mk_response 200
            (JsonIntent (mk_intent_response "pi_k1" "secret_k1"
                           "requires_action")).
Proof. vm_compute. repeat split. Qed.

(** ** Properties of the store statements *)

Section StoreFacts.

Lemma filter_nil_existsb {A : Type} (f : A -> bool) (l : list A) :
  filter f l = [] <-> existsb f l = false.
Proof.
  induction l as [|a l IH]; simpl; [tauto|].
  destruct (f a); simpl; [split; discriminate | exact IH].
Qed.

Lemma has_processed_existsb (eid : string) (d : database) :
  has_processed eid d
  = existsb (fun r => event_id r =? eid) (webhook_events d).
Proof.
  unfold has_processed, select_webhook_event.
  induction (webhook_events d) as [|r l IH]; simpl; [reflexivity|].
  destruct (event_id r =? eid); simpl; [reflexivity | exact IH].
Qed.

Lemma select_idempotency_key_nil (k ep : string) (d : database) :
  select_idempotency_key k ep d = []
  <-> existsb (fun x => (idem_key x =? k) && (idem_endpoint x =? ep))
              (idempotency_keys d) = false.
Proof.
  unfold select_idempotency_key. rewrite <- filter_nil_existsb.
  destruct (filter _ _); simpl; split; congruence.
Qed.

Lemma lookup_none (k ep : string) (d : database) :
  lookup k ep d = None <-> select_idempotency_key k ep d = [].
Proof.
  unfold lookup. destruct (select_idempotency_key k ep d); simpl;
    split; congruence.
Qed.

(** A first store under a free pair succeeds and is what a lookup then
    finds. *)
Lemma insert_idempotency_key_fresh (k ep : string) (r : intent_response)
    (d : database) :
  select_idempotency_key k ep d = [] ->
  exists d',
    insert_idempotency_key k ep r d = inr d'
    /\ select_idempotency_key k ep d' = [r]
    /\ accounts d' = accounts d /\ transactions d' = transactions d
    /\ Store.payment_intents d' = Store.payment_intents d
    /\ webhook_events d' = webhook_events d.
Proof.
  intros Hnil. pose proof Hnil as Hex.
  apply select_idempotency_key_nil in Hex.
  unfold insert_idempotency_key, key_endpoint_taken. rewrite Hex.
  eexists. split; [reflexivity|]. simpl. repeat split.
  unfold select_idempotency_key in *. simpl.
  rewrite filter_app, map_app.
  apply map_eq_nil in Hnil. rewrite Hnil. simpl.
  rewrite !String.eqb_refl. reflexivity.
Qed.

(** A store under a taken pair fails, whatever the response. *)
Lemma insert_idempotency_key_taken (k ep : string) (r : intent_response)
    (d : database) :
  select_idempotency_key k ep d <> [] ->
  insert_idempotency_key k ep r d = inl unique_violation.
Proof.
  intros Hne. unfold insert_idempotency_key, key_endpoint_taken.
  destruct (existsb _ _) eqn:E; [reflexivity|].
  apply select_idempotency_key_nil in E. contradiction.
Qed.

Lemma account_exists_insert_customer (id name x : string) (d : database) :
  account_exists x d = true ->
  account_exists x (insert_customer_account id name d) = true.
Proof.
  unfold account_exists, insert_customer_account, account_id_taken. intros H.
  destruct (existsb (fun a => acc_id a =? id) (accounts d)); [exact H|].
  simpl. rewrite existsb_app, H. reflexivity.
Qed.

Lemma account_exists_inserted (id name : string) (d : database) :
  account_exists id (insert_customer_account id name d) = true.
Proof.
  unfold account_exists, insert_customer_account, account_id_taken.
  destruct (existsb (fun a => acc_id a =? id) (accounts d)) eqn:E;
    [exact E|].
  simpl. rewrite existsb_app. simpl. rewrite String.eqb_refl.
  apply orb_true_iff. right. reflexivity.
Qed.

Lemma select_platform_escrow_exists (e : string) (rest : list string)
    (d : database) :
  select_platform_escrow d = e :: rest ->
  rest = [] /\ account_exists e d = true
  /\ exists a, In a (accounts d) /\ acc_id a = e
               /\ acc_type a = "platform_escrow".
Proof.
  unfold select_platform_escrow, account_exists.
  induction (accounts d) as [|a l IH]; simpl; [discriminate|].
  destruct (acc_type a =? "platform_escrow") eqn:T; simpl.
  - intros H. injection H as He Hr. subst e. split; [|split].
    + destruct (map acc_id _); simpl in Hr; congruence.
    + rewrite String.eqb_refl. reflexivity.
    + exists a. apply String.eqb_eq in T. auto.
  - intros H. destruct (IH H) as (Hr & Hex & a' & Hin & Hid & Hty).
    split; [exact Hr|]. split.
    + rewrite Hex. apply orb_true_r.
    + exists a'. auto.
Qed.

Lemma ledger_references_accounts_mono (d d' : database) :
  transactions d' = transactions d ->
  (forall x, account_exists x d = true -> account_exists x d' = true) ->
  ledger_references_accounts d = true ->
  ledger_references_accounts d' = true.
Proof.
  unfold ledger_references_accounts. intros Ht Hacc.
  rewrite Ht, !forallb_forall. intros H t Hin.
  specialize (H t Hin). apply andb_true_iff in H as [H1 H2].
  rewrite (Hacc _ H1), (Hacc _ H2). reflexivity.
Qed.

End StoreFacts.

(** ** Properties of the handlers *)

Section HandlerFacts.

Variable constructEvent :
  list Byte.byte -> option string -> option string -> string + stripe_event.
Variable STRIPE_WEBHOOK_SECRET : option string.
Variable sha256_hex : list Byte.byte -> string.
Variable paymentIntents_create :
  list create_params -> create_params -> string + stripe_payment_intent.
Variable randomUUID : nat -> string.

Local Abbreviation run := (run paymentIntents_create randomUUID).
Local Abbreviation step := (step paymentIntents_create randomUUID).
Local Abbreviation webhook :=
  (post_webhooks_stripe constructEvent STRIPE_WEBHOOK_SECRET sha256_hex
                        paymentIntents_create randomUUID).
Local Abbreviation create :=
  (post_payment_intents paymentIntents_create randomUUID).
Local Abbreviation verify req :=
  (constructEvent (raw_body req) (stripe_signature req)
                  STRIPE_WEBHOOK_SECRET).

Lemma run_bind {A B : Type} (p : prog A) (f : A -> prog B) (w : world) :
  run (bind p f) w
  = let (w', r) := run p w in
    match r with
    | inl m => (w', inl m)
    | inr a => run (f a) w'
    end.
Proof.
  revert w. induction p as [a | m | X c k IH]; intros w; simpl;
    try reflexivity.
  destruct (exec _ _ c w) as [w' [m | x]]; [reflexivity | apply IH].
Qed.

(** Running to the end is stepping once and running the rest. *)
Lemma run_step {R : Type} (p : prog R) (w : world) :
  run p w = let (p', w') := step p w in run p' w'.
Proof.
  destruct p as [r | m | X c k]; simpl; try reflexivity.
  destruct (exec _ _ c w) as [w' [m | x]]; reflexivity.
Qed.

(** *** The two early exits of the webhook handler *)

Lemma rejected_delivery (req : webhook_request) (w : world) (m : string) :
  verify req = inl m ->
  webhook req w = (w, webhook_error m).
Proof.
  intros H. unfold post_webhooks_stripe, try_catch, webhooks_stripe.
  rewrite H. reflexivity.
Qed.

Lemma deduped_delivery
    (req : webhook_request) (w : world) (ev : stripe_event) :
  verify req = inr ev ->
  has_processed (ev_id ev) (db w) = true ->
  webhook req w = (w, mk_response 200 (Ack true)).
Proof.
  intros Hv Hp. unfold post_webhooks_stripe, try_catch, webhooks_stripe.
  rewrite Hv. simpl. unfold has_processed in Hp. rewrite Hp. reflexivity.
Qed.

(** *** The idempotency cache on the create path *)

Lemma valid_passes (req : intent_request) :
  valid req ->
  negb (truthy (idempotency_header req)) = false
  /\ negb (Number_isInteger (amount_cents req))
     || (integer_value (amount_cents req) <=? 0)%Z = false.
Proof.
  intros [Hk Ha]. rewrite Hk. split; [reflexivity|].
  unfold positive_integer in Ha. apply andb_true_iff in Ha as [Hi Hp].
  rewrite Hi. simpl. apply Z.ltb_lt in Hp. apply Z.leb_gt. exact Hp.
Qed.

(** A hit: the stored response comes back and the world is untouched. *)
Lemma create_hit (req : intent_request) (w : world) (r : intent_response) :
  valid req ->
  lookup (key_of req) endpoint (db w) = Some r ->
  create req w = (w, mk_response 200 (JsonIntent r)).
Proof.
  intros Hv Hl. destruct (valid_passes req Hv) as [H1 H2].
  unfold post_payment_intents, try_catch, payment_intents.
  rewrite H1, H2. simpl. unfold lookup, key_of in Hl.
  destruct (select_idempotency_key _ _ _) as [|r0 rows]; simpl in *;
    [discriminate|].
  injection Hl as ->. reflexivity.
Qed.

(** A miss: the processor is called once; when it fails nothing is
    written, when it answers the mirror row and the cache entry are. *)
Lemma create_miss (req : intent_request) (w : world) :
  valid req ->
  lookup (key_of req) endpoint (db w) = None ->
  let p := mk_create_params (integer_value (amount_cents req))
             (match currency req with Some c => c | None => "usd" end)
             (match metadata req with Some m => m | None => [] end)
             (key_of req) in
  match paymentIntents_create (remote_calls w) p with
  | inl _ =>
      create req w
      = (mk_world (db w) (remote_calls w ++ [p]) (uuid_draws w),
         mk_response 500 (JsonError "Failed to create payment intent"))
  | inr pi =>
      let resp := mk_intent_response (spi_id pi) (spi_client_secret pi)
                    (spi_status pi) in
      exists d',
        create req w
        = (mk_world d' (remote_calls w ++ [p]) (uuid_draws w),
           mk_response 200 (JsonIntent resp))
        /\ lookup (key_of req) endpoint d' = Some resp
        /\ (length (Store.payment_intents d')
            <= length (Store.payment_intents (db w)) + 1)%nat
        /\ accounts d' = accounts (db w)
        /\ transactions d' = transactions (db w)
        /\ webhook_events d' = webhook_events (db w)
  end.
Proof.
  intros Hv Hl p. destruct (valid_passes req Hv) as [H1 H2].
  apply lookup_none in Hl. unfold key_of in *.
  unfold post_payment_intents, try_catch, payment_intents.
  rewrite H1, H2. simpl. rewrite Hl. simpl. fold p.
  destruct (paymentIntents_create (remote_calls w) p) as [m | pi];
    [reflexivity|].
  simpl.
  set (d1 := insert_payment_intent _ _ _ _ (db w)).
  assert (Hsel : select_idempotency_key
                   (header_value (idempotency_header req)) endpoint d1 = []).
  { unfold d1, insert_payment_intent, provider_id_taken.
    destruct (existsb _ _); [exact Hl | exact Hl]. }
  destruct (insert_idempotency_key_fresh _ _
              (mk_intent_response (spi_id pi) (spi_client_secret pi)
                 (spi_status pi)) d1 Hsel)
    as (d' & Hins & Hsel' & Hacc & Htx & Hpi & Hev).
  rewrite Hins. exists d'. split; [reflexivity|].
  split; [unfold lookup; rewrite Hsel'; reflexivity|].
  rewrite Hacc, Htx, Hpi, Hev. unfold d1, insert_payment_intent, provider_id_taken.
  destruct (existsb _ _); simpl; try rewrite length_app; simpl;
    repeat split; lia.
Qed.

(** Two valid requests with the same key, handled one after the other
    by a store that rejects nothing, when the cache holds a response for
    the key once the first is over. *)
Lemma create_twice
    (req1 req2 : intent_request) (w w1 w2 : world) (r1 r2 : response)
    (r : intent_response) :
  valid req1 -> valid req2 -> key_of req2 = key_of req1 ->
  create req1 w = (w1, r1) ->
  create req2 w1 = (w2, r2) ->
  lookup (key_of req1) endpoint (db w1) = Some r ->
  r1 = mk_response 200 (JsonIntent r)
  /\ r2 = r1
  /\ w2 = w1
  /\ (length (remote_calls w2) <= length (remote_calls w) + 1)%nat
  /\ (length (Store.payment_intents (db w2))
      <= length (Store.payment_intents (db w)) + 1)%nat.
Proof.
  intros Hv1 Hv2 Hk H1 H2 Hl.
  assert (Hsecond : create req2 w1 = (w1, mk_response 200 (JsonIntent r))).
  { apply create_hit; [exact Hv2 | rewrite Hk; exact Hl]. }
  rewrite Hsecond in H2. injection H2 as <- <-.
  destruct (lookup (key_of req1) endpoint (db w)) as [r0|] eqn:L0.
  - rewrite (create_hit req1 w r0 Hv1 L0) in H1. injection H1 as <- <-.
    rewrite L0 in Hl. injection Hl as ->. repeat split; lia.
  - pose proof (create_miss req1 w Hv1 L0) as Hm. cbv zeta in Hm.
    destruct (paymentIntents_create _ _) as [m | pi].
    + rewrite Hm in H1. injection H1 as <- <-. simpl in Hl. congruence.
    + destruct Hm as (d' & Hc & Hl' & Hlen & _).
      rewrite Hc in H1. injection H1 as <- <-. simpl in *.
      rewrite Hl' in Hl. injection Hl as <-.
      rewrite length_app. simpl. repeat split; lia.
Qed.

(** C10: the hit path never looks at the body of the retried request.
    Once the cache holds a response for a key, every valid request with
    that key, whatever its amount, currency or metadata, is answered 200
    with the stored response and changes nothing; no conflict is
    reported. *)
Theorem cache_hit_ignores_request_body
    (req : intent_request) (w : world) (k : string) (r : intent_response) :
  lookup k endpoint (db w) = Some r ->
  valid req -> key_of req = k ->
  create req w = (w, mk_response 200 (JsonIntent r)).
Proof.
  intros Hl Hv Hk. apply create_hit; [exact Hv | rewrite Hk; exact Hl].
Qed.

(** C7: a request without an idempotency key is rejected with
    "Missing Idempotency-Key"; one with a key whose amount is not a
    positive integer is rejected with "amount_cents must be a positive
    integer"; either way with status 400 and the world untouched: no
    processor call, no cache entry, no mirror row. *)
Theorem create_intent_validation (req : intent_request) (w : world) :
  truthy (idempotency_header req) && positive_integer (amount_cents req)
  = false ->
  create req w
  = (w, mk_response 400
          (JsonError
             (if truthy (idempotency_header req)
              then "amount_cents must be a positive integer"
              else "Missing Idempotency-Key"))).
Proof.
  intros H. unfold post_payment_intents, try_catch, payment_intents.
  destruct (truthy (idempotency_header req)); simpl in *; [|reflexivity].
  unfold positive_integer in H.
  destruct (amount_cents req) as [ | | b | s | z | | ]; simpl in *;
    try reflexivity.
  apply Z.ltb_ge in H. apply Z.leb_le in H. rewrite H. reflexivity.
Qed.

(** C8: when the processor's create call fails, the handler answers 500
    "Failed to create payment intent" and the store is as before: the
    mirror insert and the cache store are not executed.  Only the attempt
    itself is on the processor's side. *)
Theorem create_intent_remote_failure
    (req : intent_request) (w : world) (m : string) :
  valid req ->
  lookup (key_of req) endpoint (db w) = None ->
  paymentIntents_create (remote_calls w)
    (mk_create_params (integer_value (amount_cents req))
       (match currency req with Some c => c | None => "usd" end)
       (match metadata req with Some x => x | None => [] end)
       (key_of req)) = inl m ->
  exists w',
    create req w
    = (w', mk_response 500 (JsonError "Failed to create payment intent"))
    /\ db w' = db w
    /\ lookup (key_of req) endpoint (db w') = None.
Proof.
  intros Hv Hl Hf. pose proof (create_miss req w Hv Hl) as Hm.
  cbv zeta in Hm. rewrite Hf in Hm. eexists. split; [exact Hm|].
  simpl. split; [reflexivity | exact Hl].
Qed.

(** C6: a request whose signature does not verify is answered 400 with
    the verification error and leaves the world untouched: no processed
    event is recorded and no transaction is posted. *)
Theorem invalid_signature_rejected
    (req : webhook_request) (w : world) (m : string) :
  verify req = inl m ->
  webhook req w = (w, mk_response 400 (Text ("Webhook Error: " ++ m))).
Proof. exact (rejected_delivery req w m). Qed.

(** C5: a verified delivery whose event id is already recorded is
    acknowledged with [deduped: true] and changes nothing: no mirror
    update, no account, no transaction, no new processed-event record. *)
Theorem dedup_gate_frame
    (req : webhook_request) (w : world) (ev : stripe_event) :
  verify req = inr ev ->
  has_processed (ev_id ev) (db w) = true ->
  webhook req w = (w, mk_response 200 (Ack true)).
Proof. exact (deduped_delivery req w ev). Qed.

(** *** The webhook path, case by case *)

Lemma select_platform_escrow_upsert pid a c d :
  select_platform_escrow (upsert_payment_intent_succeeded pid a c d)
  = select_platform_escrow d.
Proof. reflexivity. Qed.

Lemma insert_customer_account_frame id n d :
  transactions (insert_customer_account id n d) = transactions d
  /\ Store.payment_intents (insert_customer_account id n d)
     = Store.payment_intents d
  /\ idempotency_keys (insert_customer_account id n d) = idempotency_keys d
  /\ webhook_events (insert_customer_account id n d) = webhook_events d.
Proof.
  unfold insert_customer_account, account_id_taken. destruct (existsb _ _); repeat split.
Qed.

Lemma insert_webhook_event_fresh (e : webhook_event) (d : database) :
  has_processed (event_id e) d = false ->
  insert_webhook_event e d
  = inr (mk_database (accounts d) (transactions d) (Store.payment_intents d)
           (idempotency_keys d) (webhook_events d ++ [e])).
Proof.
  rewrite has_processed_existsb. unfold insert_webhook_event, event_id_taken.
  intros ->. reflexivity.
Qed.

Lemma has_processed_frame (eid : string) (d d' : database) :
  webhook_events d' = webhook_events d ->
  has_processed eid d' = has_processed eid d.
Proof.
  intros H. unfold has_processed, select_webhook_event. rewrite H.
  reflexivity.
Qed.

Lemma first_seen_succeeded (req : webhook_request) (w : world) (ev : stripe_event) (e0 : string) rest :
  verify req = inr ev ->
  has_processed (ev_id ev) (db w) = false ->
  succeeded ev = true ->
  select_platform_escrow (db w) = e0 :: rest ->
  let pi := ev_object ev in
  let uuid := randomUUID (uuid_draws w) in
  let name := ("Customer " ++ match spi_customer pi with
                              | Some c => c
                              | None => "anon"
                              end)%string in
  let d1 := upsert_payment_intent_succeeded (spi_id pi)
              (spi_amount_received pi) (spi_currency pi) (db w) in
  let d2 := insert_customer_account uuid name d1 in
  webhook req w
  = (mk_world
       (mk_database (accounts d2)
          (transactions (db w) ++ [ledger_entry uuid e0 pi])
          (Store.payment_intents d1) (idempotency_keys (db w))
          (webhook_events (db w)
             ++ [mk_webhook_event (ev_id ev) (ev_type ev)
                   (sha256_hex (raw_body req))]))
       (remote_calls w) (S (uuid_draws w)),
     mk_response 200 (Ack false)).
Proof.
  intros Hv Hp Hs He pi uuid name d1 d2.
  unfold post_webhooks_stripe, try_catch, webhooks_stripe.
  rewrite Hv. cbn [run exec]. pose proof Hp as Hp'.
  unfold has_processed in Hp'. rewrite Hp'.
  unfold succeeded in Hs. rewrite Hs. rewrite run_bind.
  cbn [run exec set_db db remote_calls uuid_draws].
  rewrite select_platform_escrow_upsert, He.
  cbn [run exec set_db db remote_calls uuid_draws].
  fold pi. fold uuid. fold name. fold d1. fold d2.
  destruct (insert_customer_account_frame uuid name d1)
    as (Htx & Hpi & Hik & Hev).
  rewrite insert_webhook_event_fresh.
  - cbn [run exec set_db db remote_calls uuid_draws insert_transaction
         accounts transactions Store.payment_intents idempotency_keys
         webhook_events].
    fold d2 in Htx, Hpi, Hik, Hev. unfold set_db.
    cbn [db remote_calls uuid_draws]. rewrite Htx, Hpi, Hik, Hev.
    reflexivity.
  - cbn [event_id]. rewrite <- Hp. apply has_processed_frame.
    cbn [insert_transaction webhook_events set_db db]. exact Hev.
Qed.

Lemma first_seen_no_escrow
    (req : webhook_request) (w : world) (ev : stripe_event) :
  verify req = inr ev ->
  has_processed (ev_id ev) (db w) = false ->
  succeeded ev = true ->
  select_platform_escrow (db w) = [] ->
  let pi := ev_object ev in
  let uuid := randomUUID (uuid_draws w) in
  let name := ("Customer " ++ match spi_customer pi with
                              | Some c => c
                              | None => "anon"
                              end)%string in
  let d1 := upsert_payment_intent_succeeded (spi_id pi)
              (spi_amount_received pi) (spi_currency pi) (db w) in
  webhook req w
  = (mk_world (insert_customer_account uuid name d1)
       (remote_calls w) (S (uuid_draws w)),
     webhook_error "Cannot read properties of undefined (reading 'id')").
Proof.
  intros Hv Hp Hs He pi uuid name d1.
  unfold post_webhooks_stripe, try_catch, webhooks_stripe.
  rewrite Hv. cbn [run exec]. unfold has_processed in Hp. rewrite Hp.
  unfold succeeded in Hs. rewrite Hs. rewrite run_bind.
  cbn [run exec set_db db remote_calls uuid_draws].
  rewrite select_platform_escrow_upsert, He. reflexivity.
Qed.

Lemma first_seen_other
    (req : webhook_request) (w : world) (ev : stripe_event) :
  verify req = inr ev ->
  has_processed (ev_id ev) (db w) = false ->
  succeeded ev = false ->
  webhook req w
  = (set_db w
       (mk_database (accounts (db w)) (transactions (db w))
          (Store.payment_intents (db w)) (idempotency_keys (db w))
          (webhook_events (db w)
             ++ [mk_webhook_event (ev_id ev) (ev_type ev)
                   (sha256_hex (raw_body req))])),
     mk_response 200 (Ack false)).
Proof.
  intros Hv Hp Hs.
  unfold post_webhooks_stripe, try_catch, webhooks_stripe.
  rewrite Hv. cbn [run exec]. pose proof Hp as Hp'.
  unfold has_processed in Hp'. rewrite Hp'.
  unfold succeeded in Hs. rewrite Hs. rewrite run_bind.
  assert (Hskip : (if ev_type ev =? "charge.refunded"
                   then @Ret unit tt else Ret tt) = Ret tt)
    by (destruct (ev_type ev =? "charge.refunded"); reflexivity).
  rewrite Hskip. cbn [run exec].
  rewrite insert_webhook_event_fresh by exact Hp. reflexivity.
Qed.

Lemma has_processed_recorded (e : webhook_event)
    (a : list account) (t : list transaction) (p : list payment_intent)
    (i : list idempotency_key) (rows : list webhook_event) :
  has_processed (event_id e) (mk_database a t p i (rows ++ [e])) = true.
Proof.
  rewrite has_processed_existsb. simpl. rewrite existsb_app. simpl.
  rewrite String.eqb_refl. apply orb_true_iff. right. reflexivity.
Qed.

Lemma select_webhook_event_once (e : webhook_event) (d : database)
    (a : list account) (t : list transaction) (p : list payment_intent)
    (i : list idempotency_key) :
  has_processed (event_id e) d = false ->
  length (select_webhook_event (event_id e)
            (mk_database a t p i (webhook_events d ++ [e]))) = 1%nat.
Proof.
  unfold has_processed, select_webhook_event. intros H.
  apply Nat.ltb_ge in H. simpl. rewrite filter_app, length_app. simpl.
  rewrite String.eqb_refl. simpl. lia.
Qed.

Lemma deliver_deduped (n : nat) (req : webhook_request) (w : world)
    (ev : stripe_event) :
  verify req = inr ev ->
  has_processed (ev_id ev) (db w) = true ->
  deliver constructEvent STRIPE_WEBHOOK_SECRET sha256_hex
          paymentIntents_create randomUUID n req w
  = (w, repeat (mk_response 200 (Ack true)) n).
Proof.
  intros Hv Hp. induction n as [|n IH]; simpl; [reflexivity|].
  rewrite (deduped_delivery req w ev Hv Hp), IH. reflexivity.
Qed.

(** *** What the statements of the payment branch leave behind *)

Lemma upsert_mirror_succeeded (pid : string) (a : Z) (c : string)
    (d : database) :
  exists row,
    In row (Store.payment_intents (upsert_payment_intent_succeeded pid a c d))
    /\ provider_id row = pid /\ pi_status row = "succeeded".
Proof.
  unfold upsert_payment_intent_succeeded, provider_id_taken.
  cbn [Store.payment_intents].
  destruct (existsb _ _) eqn:E.
  - apply existsb_exists in E as (x & Hin & Hx).
    exists (mk_payment_intent (provider x) (provider_id x)
              (pi_amount_cents x) (pi_currency x) "succeeded").
    split; [|split; [apply String.eqb_eq; exact Hx | reflexivity]].
    apply in_map_iff. exists x. rewrite Hx. auto.
  - eexists. split; [apply in_or_app; right; left; reflexivity|].
    split; reflexivity.
Qed.

Lemma upsert_all_succeeded (pid : string) (a : Z) (c : string)
    (d : database) (row : payment_intent) :
  In row (Store.payment_intents (upsert_payment_intent_succeeded pid a c d)) ->
  provider_id row = pid -> pi_status row = "succeeded".
Proof.
  unfold upsert_payment_intent_succeeded, provider_id_taken.
  cbn [Store.payment_intents].
  destruct (existsb _ _) eqn:E; intros Hin Hid.
  - apply in_map_iff in Hin as (x & Hx & _).
    destruct (provider_id x =? pid) eqn:T; subst row; [reflexivity|].
    apply String.eqb_neq in T. contradiction.
  - apply in_app_or in Hin as [Hin | [<- | []]]; [|reflexivity].
    assert (existsb (fun r => provider_id r =? pid)
                    (Store.payment_intents d) = true) as E'.
    { apply existsb_exists. exists row. split; [exact Hin|].
      apply String.eqb_eq. exact Hid. }
    congruence.
Qed.

Lemma escrow_accounts_insert_customer (id name : string) (d : database) :
  filter (fun a => acc_type a =? "platform_escrow")
         (accounts (insert_customer_account id name d))
  = filter (fun a => acc_type a =? "platform_escrow") (accounts d).
Proof.
  unfold insert_customer_account, account_id_taken. destruct (existsb _ _); [reflexivity|].
  cbn [accounts]. rewrite filter_app. simpl. apply app_nil_r.
Qed.

(** The create path never touches accounts or transactions. *)
Lemma create_ledger_frame (req : intent_request) (w : world) :
  accounts (db (fst (create req w))) = accounts (db w)
  /\ transactions (db (fst (create req w))) = transactions (db w).
Proof.
  unfold post_payment_intents, try_catch, payment_intents.
  destruct (negb (truthy _)); [split; reflexivity|].
  destruct (_ || _); [split; reflexivity|].
  cbn [run exec].
  destruct (select_idempotency_key _ _ _); [|split; reflexivity].
  cbn [run exec]. destruct (paymentIntents_create _ _) as [m | pi];
    [split; reflexivity|].
  cbn [run exec set_db db remote_calls uuid_draws].
  set (d1 := insert_payment_intent _ _ _ _ (db w)).
  assert (H1 : accounts d1 = accounts (db w)
               /\ transactions d1 = transactions (db w)).
  { unfold d1, insert_payment_intent, provider_id_taken. destruct (existsb _ _);
      split; reflexivity. }
  unfold insert_idempotency_key, key_endpoint_taken. destruct (existsb _ _); exact H1.
Qed.

(** What a first-seen "payment succeeded" event leaves behind when the
    store holds a platform-escrow account and rejects nothing. *)
Lemma first_seen_payment
    (req : webhook_request) (w : world) (ev : stripe_event)
    (e0 : string) (rest : list string) :
  verify req = inr ev ->
  has_processed (ev_id ev) (db w) = false ->
  succeeded ev = true ->
  select_platform_escrow (db w) = e0 :: rest ->
  let pi := ev_object ev in
  let customer := randomUUID (uuid_draws w) in
  exists w',
    webhook req w = (w', mk_response 200 (Ack false))
    /\ (exists row, In row (Store.payment_intents (db w'))
                    /\ provider_id row = spi_id pi
                    /\ pi_status row = "succeeded")
    /\ (forall row, In row (Store.payment_intents (db w')) ->
                    provider_id row = spi_id pi ->
                    pi_status row = "succeeded")
    /\ account_exists customer (db w') = true
    /\ (exists a, In a (accounts (db w')) /\ acc_id a = e0
                  /\ acc_type a = "platform_escrow")
    /\ filter (fun a => acc_type a =? "platform_escrow") (accounts (db w'))
       = filter (fun a => acc_type a =? "platform_escrow") (accounts (db w))
    /\ transactions (db w')
       = transactions (db w)
           ++ [mk_transaction customer e0 (spi_amount_received pi)
                 (spi_currency pi) (spi_id pi)]
    /\ has_processed (ev_id ev) (db w') = true.
Proof.
  intros Hv Hp Hs He pi customer.
  pose proof (first_seen_succeeded req w ev e0 rest Hv Hp Hs He) as H.
  cbv zeta in H. fold pi customer in H.
  eexists. split; [exact H|]. cbn [db Store.payment_intents accounts
                                   transactions].
  split; [apply upsert_mirror_succeeded|].
  split; [apply upsert_all_succeeded|].
  split; [apply account_exists_inserted|].
  split.
  { destruct (select_platform_escrow_exists e0 rest (db w) He)
      as (_ & _ & a & Hin & Hid & Hty).
    exists a. split; [|auto].
    unfold insert_customer_account, account_id_taken. destruct (existsb _ _); [exact Hin|].
    cbn [accounts]. apply in_or_app. left. exact Hin. }
  split; [rewrite escrow_accounts_insert_customer; reflexivity|].
  split; [reflexivity|].
  exact (has_processed_recorded
           (mk_webhook_event (ev_id ev) (ev_type ev)
              (sha256_hex (raw_body req))) _ _ _ _ _).
Qed.

(** Deliveries handled one after the other by a store that rejects
    nothing. *)
Lemma deliveries_in_a_row
    (n : nat) (req : webhook_request) (w : world) (ev : stripe_event) :
  verify req = inr ev ->
  has_processed (ev_id ev) (db w) = false ->
  (succeeded ev = true -> select_platform_escrow (db w) <> []) ->
  exists w',
    deliver constructEvent STRIPE_WEBHOOK_SECRET sha256_hex
            paymentIntents_create randomUUID (S n) req w
    = (w', mk_response 200 (Ack false)
           :: repeat (mk_response 200 (Ack true)) n)
    /\ transactions (db w')
       = transactions (db w)
           ++ (if succeeded ev
               then [ledger_entry (randomUUID (uuid_draws w))
                       (hd "" (select_platform_escrow (db w)))
                       (ev_object ev)]
               else [])
    /\ length (select_webhook_event (ev_id ev) (db w')) = 1%nat.
Proof.
  intros Hv Hp He.
  set (row := mk_webhook_event (ev_id ev) (ev_type ev)
                (sha256_hex (raw_body req))).
  cbn [deliver].
  destruct (succeeded ev) eqn:Hs.
  - destruct (select_platform_escrow (db w)) as [|e0 rest] eqn:Esc;
      [exfalso; apply He; reflexivity|].
    rewrite (first_seen_succeeded req w ev e0 rest Hv Hp Hs Esc).
    rewrite (deliver_deduped n req _ ev Hv)
      by (exact (has_processed_recorded row _ _ _ _ _)).
    eexists. split; [reflexivity|]. split; [reflexivity|].
    cbn [db]. exact (select_webhook_event_once row (db w) _ _ _ _ Hp).
  - rewrite (first_seen_other req w ev Hv Hp Hs).
    rewrite (deliver_deduped n req _ ev Hv)
      by (exact (has_processed_recorded row _ _ _ _ _)).
    eexists. split; [reflexivity|]. cbn [db set_db transactions].
    split; [symmetry; apply app_nil_r|].
    exact (select_webhook_event_once row (db w) _ _ _ _ Hp).
Qed.

Lemma account_exists_after_payment (x id name pid : string) (a : Z)
    (c : string) (d : database) :
  account_exists x d = true ->
  existsb (fun acc => acc_id acc =? x)
    (accounts (insert_customer_account id name
                 (upsert_payment_intent_succeeded pid a c d))) = true.
Proof.
  intros H.
  exact (account_exists_insert_customer id name x
           (upsert_payment_intent_succeeded pid a c d) H).
Qed.

(** The ledger at rest, request by request, in a store that rejects
    nothing. *)
Lemma ledger_at_rest
    (req : webhook_request) (ireq : intent_request) (w : world) :
  ledger_references_accounts (db w) = true ->
  ledger_references_accounts (db (fst (webhook req w))) = true
  /\ ledger_references_accounts (db (fst (create ireq w))) = true
  /\ (forall t, In t (transactions (db (fst (webhook req w)))) ->
        In t (transactions (db w))
        \/ exists ev, verify req = inr ev /\ succeeded ev = true
                      /\ tx_amount_cents t = spi_amount_received (ev_object ev)
                      /\ external_ref t = spi_id (ev_object ev))
  /\ (select_platform_escrow (db w) = [] ->
      transactions (db (fst (webhook req w))) = transactions (db w)).
Proof.
  intros Hinv.
  assert (Hcreate : ledger_references_accounts (db (fst (create ireq w)))
                    = true).
  { destruct (create_ledger_frame ireq w) as [Ha Ht].
    apply (ledger_references_accounts_mono (db w)); [exact Ht| |exact Hinv].
    intros x. unfold account_exists. rewrite Ha. auto. }
  destruct (verify req) as [m | ev] eqn:Hv.
  { rewrite (rejected_delivery req w m Hv). cbn [fst]. auto. }
  destruct (has_processed (ev_id ev) (db w)) eqn:Hp.
  { rewrite (deduped_delivery req w ev Hv Hp). cbn [fst]. auto. }
  destruct (succeeded ev) eqn:Hs.
  2:{ rewrite (first_seen_other req w ev Hv Hp Hs). cbn [fst db set_db].
      split; [|split; [exact Hcreate | split; auto]].
      apply (ledger_references_accounts_mono (db w));
        [reflexivity | auto | exact Hinv]. }
  destruct (select_platform_escrow (db w)) as [|e0 rest] eqn:Esc.
  - rewrite (first_seen_no_escrow req w ev Hv Hp Hs Esc). cbn [fst db].
    destruct (insert_customer_account_frame
                (randomUUID (uuid_draws w))
                ("Customer " ++ match spi_customer (ev_object ev) with
                                | Some c => c
                                | None => "anon"
                                end)%string
                (upsert_payment_intent_succeeded (spi_id (ev_object ev))
                   (spi_amount_received (ev_object ev))
                   (spi_currency (ev_object ev)) (db w)))
      as (Htx & _).
    split; [|split; [exact Hcreate | split]].
    + apply (ledger_references_accounts_mono (db w));
        [exact Htx | | exact Hinv].
      intros x Hx. apply account_exists_after_payment. exact Hx.
    + intros t Ht. left. rewrite Htx in Ht. exact Ht.
    + intros _. exact Htx.
  - rewrite (first_seen_succeeded req w ev e0 rest Hv Hp Hs Esc).
    cbn [fst db].
    split; [|split; [exact Hcreate | split; [|discriminate]]].
    + unfold ledger_references_accounts, account_exists.
      cbn [transactions accounts]. rewrite forallb_app. cbn [forallb].
      apply andb_true_iff. split.
      * unfold ledger_references_accounts in Hinv.
        rewrite forallb_forall in *. intros t Ht. specialize (Hinv t Ht).
        apply andb_true_iff in Hinv as [H1 H2].
        rewrite !account_exists_after_payment by assumption. reflexivity.
      * cbn [ledger_entry debit_account credit_account].
        destruct (select_platform_escrow_exists e0 rest (db w) Esc)
          as (_ & He0 & _).
        rewrite (account_exists_after_payment e0) by exact He0.
        pose proof (account_exists_inserted (randomUUID (uuid_draws w))
                      ("Customer " ++ match spi_customer (ev_object ev) with
                                      | Some c => c
                                      | None => "anon"
                                      end)%string
                      (upsert_payment_intent_succeeded
                         (spi_id (ev_object ev))
                         (spi_amount_received (ev_object ev))
                         (spi_currency (ev_object ev)) (db w))) as Hnew.
        unfold account_exists in Hnew. rewrite Hnew. reflexivity.
    + intros t Ht. cbn [transactions] in Ht.
      apply in_app_or in Ht as [Ht | [<- | []]]; [left; exact Ht|].
      right. exists ev. repeat split. exact Hs.
Qed.

End HandlerFacts.

(** ** The idempotency cache as a store *)

(** C2 (as amended): the store keeps the first response of a pair.  After
    a response is stored under a free (key, operation) pair, a lookup
    yields it, and every further store under the pair fails with the
    uniqueness violation, whether the new response is different or the
    same; the failed statement writes nothing, so the first response
    stays. *)
Theorem idempotency_store_first_write_wins
    (k ep : string) (r1 r2 : intent_response) (d : database) :
  lookup k ep d = None ->
  exists d1,
    insert_idempotency_key k ep r1 d = inr d1
    /\ lookup k ep d1 = Some r1
    /\ insert_idempotency_key k ep r2 d1 = inl unique_violation.
Proof.
  intros Hl. apply lookup_none in Hl.
  destruct (insert_idempotency_key_fresh k ep r1 d Hl)
    as (d1 & Hins & Hsel & _).
  exists d1. split; [exact Hins|].
  split; [unfold lookup; rewrite Hsel; reflexivity|].
  apply insert_idempotency_key_taken. rewrite Hsel. discriminate.
Qed.

(** ** Scenarios that fail *)

(** C1: two deliveries of "evt_1" in flight at once post two
    transactions for one recorded event; the second delivery ends in the
    uniqueness violation, after its transaction is in the ledger.  And
    without a platform-escrow account, two deliveries in a row post
    nothing and record nothing.  And when the store rejects the INSERT
    INTO webhook_events of a first delivery, that delivery is answered 400
    with its transaction in the ledger, and the redelivery posts a second
    one. *)
Lemma concurrent_deliveries_post_twice :
  (let '(p, q, w) :=
     Scenario.in_flight Scenario.race
       (Scenario.delivery Scenario.evt_1) (Scenario.delivery Scenario.evt_1)
       Scenario.seeded in
   p = Ret (mk_response 200 (Ack false))
   /\ q = Throw unique_violation
   /\ transactions (db w)
      = [mk_transaction "uuid-0" "acct_escrow" 2500 "usd" "pi_X";
         mk_transaction "uuid-1" "acct_escrow" 2500 "usd" "pi_X"]
   /\ length (select_webhook_event "evt_1" (db w)) = 1%nat)
  /\ (let (w, rs) :=
        deliver Scenario.constructEvent Scenario.secret Scenario.sha256_hex
                Scenario.paymentIntents_create Scenario.randomUUID
                2 Scenario.evt_1 Scenario.unseeded in
      transactions (db w) = [] /\ webhook_events (db w) = []
      /\ map status rs = [400; 400])
  /\ (let '(_, w, rs) :=
        Tour.deliveries_under 2 Tour.record_rejected Scenario.evt_1
          Scenario.seeded in
      transactions (db w)
      = [mk_transaction "uuid-0" "acct_escrow" 2500 "usd" "pi_X";
         mk_transaction "uuid-1" "acct_escrow" 2500 "usd" "pi_X"]
      /\ length (select_webhook_event "evt_1" (db w)) = 1%nat
      /\ map status rs = [400; 200]).
Proof. vm_compute. repeat split. Qed.

(** C2: storing the same response a second time does not succeed.  The
    handler gets there when two requests with the key "k1" are in flight
    at once: the processor hands both the same intent, the first stores
    its response, and the second, storing the very same response, ends
    in the uniqueness violation. *)
Lemma storing_same_response_twice_fails :
  (exists d1,
     insert_idempotency_key "k1" endpoint Scenario.R1 Store.empty = inr d1
     /\ insert_idempotency_key "k1" endpoint Scenario.R1 d1
        = inl unique_violation)
  /\ (let '(p, q, w) :=
        Scenario.in_flight Scenario.create_race
          (payment_intents (Scenario.intent "k1" 2500))
          (payment_intents (Scenario.intent "k1" 2500))
          Scenario.seeded in
      p = Ret (mk_response 200 (JsonIntent Scenario.stored_k1))
      /\ q = Throw unique_violation
      /\ idempotency_keys (db w)
         = [mk_idempotency_key "k1" endpoint Scenario.stored_k1]).
Proof.
  split; [eexists; split; reflexivity|]. vm_compute. repeat split.
Qed.


(** C4: a verified "payment succeeded" event reporting amount 0 is
    acknowledged and its transaction, of amount 0, is in the ledger.  The
    handler itself has no amount check: after its first five statements
    the delivery is about to issue the INSERT INTO transactions with
    amount 0. *)
Lemma zero_amount_is_posted :
  (let (w, r) := Scenario.webhook Scenario.evt_0 Scenario.seeded in
   r = mk_response 200 (Ack false)
   /\ transactions (db w)
      = [mk_transaction "uuid-0" "acct_escrow" 0 "usd" "pi_Z"]
   /\ exists t, In t (transactions (db w)) /\ (tx_amount_cents t <= 0)%Z)
  /\ (let '(p, _, _) :=
        Scenario.in_flight (repeat true 5)
          (Scenario.delivery Scenario.evt_0)
          (Scenario.delivery Scenario.evt_0) Scenario.seeded in
      exists k,
        p = Do (InsertTransaction
                  (mk_transaction "uuid-0" "acct_escrow" 0 "usd" "pi_Z"))
               k).
Proof.
  split.
  - vm_compute. split; [reflexivity|]. split; [reflexivity|].
    eexists. split; [left; reflexivity|]. discriminate.
  - vm_compute. eexists. reflexivity.
Qed.

(** C9: with no platform-escrow account in the store, a first-seen
    "payment succeeded" event is answered 400; no escrow account is
    created, no transaction is posted and the event is not recorded,
    while the mirror row and a customer account are already written. *)
Lemma no_escrow_no_transaction :
  let (w, r) := Scenario.webhook Scenario.evt_1 Scenario.unseeded in
  r = mk_response 400
        (Text "Webhook Error: Cannot read properties of undefined (reading 'id')")
  /\ select_platform_escrow (db w) = []
  /\ transactions (db w) = []
  /\ webhook_events (db w) = []
  /\ accounts (db w) = [mk_account "uuid-0" "Customer cus_1" "customer"]
  /\ Store.payment_intents (db w)
     = [mk_payment_intent "stripe" "pi_X" 2500 "usd" "succeeded"].
Proof. vm_compute. repeat split. Qed.

(** ** The theorems at work on the scenarios *)

Lemma cache_hit_ignores_request_body_witness :
  Scenario.create Scenario.retry_eur (fst Scenario.first_k1)
  = (fst Scenario.first_k1,
     mk_response 200 (JsonIntent Scenario.stored_k1)).
Proof.
  apply (cache_hit_ignores_request_body
           Scenario.paymentIntents_create Scenario.randomUUID
           Scenario.retry_eur (fst Scenario.first_k1) "k1"
           Scenario.stored_k1).
  - reflexivity.
  - split; reflexivity.
  - reflexivity.
Defined.

Lemma create_intent_validation_witness :
  Scenario.create Scenario.no_key Scenario.seeded
  = (Scenario.seeded,
     mk_response 400 (JsonError "Missing Idempotency-Key"))
  /\ Scenario.create (Scenario.intent "k1" 0) Scenario.seeded
     = (Scenario.seeded,
        mk_response 400
          (JsonError "amount_cents must be a positive integer")).
Proof.
  split.
  - apply (create_intent_validation
             Scenario.paymentIntents_create Scenario.randomUUID
             Scenario.no_key Scenario.seeded).
    reflexivity.
  - apply (create_intent_validation
             Scenario.paymentIntents_create Scenario.randomUUID
             (Scenario.intent "k1" 0) Scenario.seeded).
    reflexivity.
Defined.

Lemma create_intent_remote_failure_witness :
  exists w',
    Scenario.create (Scenario.intent "k_down" 2500) Scenario.seeded
    = (w', mk_response 500 (JsonError "Failed to create payment intent"))
    /\ db w' = db Scenario.seeded
    /\ lookup "k_down" endpoint (db w') = None.
Proof.
  apply (create_intent_remote_failure
           Scenario.paymentIntents_create Scenario.randomUUID
           (Scenario.intent "k_down" 2500) Scenario.seeded
           "connection to processor lost").
  - split; reflexivity.
  - reflexivity.
  - reflexivity.
Defined.

Lemma invalid_signature_rejected_witness :
  Scenario.webhook Scenario.forged Scenario.seeded
  = (Scenario.seeded,
     mk_response 400
       (Text ("Webhook Error: " ++ Scenario.no_signature_match))).
Proof.
  apply (invalid_signature_rejected
           Scenario.constructEvent Scenario.secret Scenario.sha256_hex
           Scenario.paymentIntents_create Scenario.randomUUID
           Scenario.forged Scenario.seeded Scenario.no_signature_match).
  reflexivity.
Defined.

Lemma dedup_gate_frame_witness :
  Scenario.webhook Scenario.evt_1 (fst Scenario.after_evt_1)
  = (fst Scenario.after_evt_1, mk_response 200 (Ack true)).
Proof.
  apply (dedup_gate_frame
           Scenario.constructEvent Scenario.secret Scenario.sha256_hex
           Scenario.paymentIntents_create Scenario.randomUUID
           Scenario.evt_1 (fst Scenario.after_evt_1)
           (mk_stripe_event "evt_1" "payment_intent.succeeded"
                            Scenario.pi_X)).
  - reflexivity.
  - reflexivity.
Defined.

Lemma idempotency_store_first_write_wins_witness :
  exists d1,
    insert_idempotency_key "k1" endpoint Scenario.R1 Store.empty = inr d1
    /\ lookup "k1" endpoint d1 = Some Scenario.R1
    /\ insert_idempotency_key "k1" endpoint Scenario.R2 d1
       = inl unique_violation.
Proof.
  apply (idempotency_store_first_write_wins
           "k1" endpoint Scenario.R1 Scenario.R2 Store.empty).
  reflexivity.
Defined.

(** ** What no statement ever does *)

Section Growth.

Lemma mirror_kept_refl (d : database) : mirror_kept d d.
Proof. intros r Hr. exists r. repeat split; auto. Qed.

Lemma mirror_kept_trans (d1 d2 d3 : database) :
  mirror_kept d1 d2 -> mirror_kept d2 d3 -> mirror_kept d1 d3.
Proof.
  intros H12 H23 r Hr.
  destruct (H12 r Hr) as (r2 & Hin2 & Hp2 & Hid2 & Ha2 & Hc2 & Hs2).
  destruct (H23 r2 Hin2) as (r3 & Hin3 & Hp3 & Hid3 & Ha3 & Hc3 & Hs3).
  exists r3. repeat split; try congruence.
  destruct Hs3 as [Hs3 | Hs3]; [|right; exact Hs3].
  destruct Hs2 as [Hs2 | Hs2]; [left | right]; congruence.
Qed.

Lemma mirror_kept_same (d d' : database) :
  Store.payment_intents d' = Store.payment_intents d -> mirror_kept d d'.
Proof. intros H r Hr. exists r. rewrite H. repeat split; auto. Qed.

Lemma store_grows_refl (d : database) : store_grows d d.
Proof.
  repeat split; try (exists []; symmetry; apply app_nil_r).
  apply mirror_kept_refl.
Qed.

Lemma store_grows_trans (d1 d2 d3 : database) :
  store_grows d1 d2 -> store_grows d2 d3 -> store_grows d1 d3.
Proof.
  intros ((a & Ha) & (t & Ht) & (i & Hi) & (e & He) & Hm)
         ((a' & Ha') & (t' & Ht') & (i' & Hi') & (e' & He') & Hm').
  repeat split.
  - exists (a ++ a'). rewrite Ha', Ha, app_assoc. reflexivity.
  - exists (t ++ t'). rewrite Ht', Ht, app_assoc. reflexivity.
  - exists (i ++ i'). rewrite Hi', Hi, app_assoc. reflexivity.
  - exists (e ++ e'). rewrite He', He, app_assoc. reflexivity.
  - exact (mirror_kept_trans _ _ _ Hm Hm').
Qed.

Ltac same_table := exists []; symmetry; apply app_nil_r.
Ltac new_rows := eexists; reflexivity.

Lemma upsert_grows (pid : string) (a : Z) (c : string) (d : database) :
  store_grows d (upsert_payment_intent_succeeded pid a c d).
Proof.
  repeat split; try same_table.
  intros r Hr. unfold upsert_payment_intent_succeeded.
  cbn [Store.payment_intents]. destruct (provider_id_taken pid d).
  - destruct (provider_id r =? pid) eqn:E.
    + exists (mk_payment_intent (provider r) (provider_id r)
                (pi_amount_cents r) (pi_currency r) "succeeded").
      split; [|repeat split; auto].
      apply in_map_iff. exists r. rewrite E. auto.
    + exists r. split; [|repeat split; auto].
      apply in_map_iff. exists r. rewrite E. auto.
  - exists r. split; [apply in_or_app; left; exact Hr | repeat split; auto].
Qed.

Lemma insert_customer_account_grows (id name : string) (d : database) :
  store_grows d (insert_customer_account id name d).
Proof.
  unfold insert_customer_account. destruct (account_id_taken id d);
    [apply store_grows_refl|].
  repeat split; try same_table; try new_rows.
  apply mirror_kept_same. reflexivity.
Qed.

Lemma insert_transaction_grows (t : transaction) (d : database) :
  store_grows d (insert_transaction t d).
Proof.
  repeat split; try same_table; try new_rows.
  apply mirror_kept_same. reflexivity.
Qed.

Lemma insert_webhook_event_grows (e : webhook_event) (d d' : database) :
  insert_webhook_event e d = inr d' -> store_grows d d'.
Proof.
  unfold insert_webhook_event. destruct (event_id_taken _ d);
    [discriminate|].
  intros H. injection H as <-.
  repeat split; try same_table; try new_rows.
  apply mirror_kept_same. reflexivity.
Qed.

Lemma insert_payment_intent_grows (pid : string) (a : Z) (c st : string)
    (d : database) :
  store_grows d (insert_payment_intent pid a c st d).
Proof.
  unfold insert_payment_intent. destruct (provider_id_taken pid d);
    [apply store_grows_refl|].
  repeat split; try same_table.
  intros r Hr. exists r. cbn [Store.payment_intents].
  split; [apply in_or_app; left; exact Hr | repeat split; auto].
Qed.

Lemma insert_idempotency_key_grows (k ep : string) (r : intent_response)
    (d d' : database) :
  insert_idempotency_key k ep r d = inr d' -> store_grows d d'.
Proof.
  unfold insert_idempotency_key. destruct (key_endpoint_taken k ep d);
    [discriminate|].
  intros H. injection H as <-.
  repeat split; try same_table; try new_rows.
  apply mirror_kept_same. reflexivity.
Qed.

End Growth.

Section Coverage.

Variable constructEvent :
  list Byte.byte -> option string -> option string -> string + stripe_event.
Variable STRIPE_WEBHOOK_SECRET : option string.
Variable sha256_hex : list Byte.byte -> string.
Variable paymentIntents_create :
  list create_params -> create_params -> string + stripe_payment_intent.
Variable randomUUID : nat -> string.

Local Abbreviation exec := (exec paymentIntents_create randomUUID).
Local Abbreviation run := (run paymentIntents_create randomUUID).
Local Abbreviation step := (step paymentIntents_create randomUUID).
Local Abbreviation interleave :=
  (interleave paymentIntents_create randomUUID).
Local Abbreviation webhook :=
  (post_webhooks_stripe constructEvent STRIPE_WEBHOOK_SECRET sha256_hex
                        paymentIntents_create randomUUID).
Local Abbreviation create :=
  (post_payment_intents paymentIntents_create randomUUID).
Local Abbreviation verify req :=
  (constructEvent (raw_body req) (stripe_signature req)
                  STRIPE_WEBHOOK_SECRET).
Local Abbreviation deliveries :=
  (deliver constructEvent STRIPE_WEBHOOK_SECRET sha256_hex
           paymentIntents_create randomUUID).

(** *** From one statement to whole requests *)

Section Lifting.

Variable keeps : world -> world -> Prop.
Hypothesis keeps_refl : forall w, keeps w w.
Hypothesis keeps_trans :
  forall w1 w2 w3, keeps w1 w2 -> keeps w2 w3 -> keeps w1 w3.
Hypothesis keeps_exec :
  forall (A : Type) (c : cmd A) (w : world), keeps w (fst (exec c w)).

Lemma keeps_step {R : Type} (p : prog R) (w : world) :
  keeps w (snd (step p w)).
Proof.
  destruct p as [r | m | A c k]; simpl; try apply keeps_refl.
  pose proof (keeps_exec A c w) as H.
  destruct (exec c w) as [w' a]. exact H.
Qed.

Lemma keeps_run {R : Type} (p : prog R) (w : world) :
  keeps w (fst (run p w)).
Proof.
  revert w. induction p as [r | m | A c k IH]; intros w; simpl;
    try apply keeps_refl.
  pose proof (keeps_exec A c w) as H.
  destruct (exec c w) as [w' [m | x]]; [exact H|].
  exact (keeps_trans _ _ _ H (IH x w')).
Qed.

Lemma keeps_interleave {R : Type} (schedule : list bool) (p q : prog R)
    (w : world) :
  keeps w (snd (interleave schedule p q w)).
Proof.
  revert p q w. induction schedule as [|b s IH]; intros p q w; simpl;
    [apply keeps_refl|].
  destruct b.
  - pose proof (keeps_step p w) as H. destruct (step p w) as [p' w'].
    exact (keeps_trans _ _ _ H (IH p' q w')).
  - pose proof (keeps_step q w) as H. destruct (step q w) as [q' w'].
    exact (keeps_trans _ _ _ H (IH p q' w')).
Qed.

Lemma keeps_try_catch (p : prog response) (on_error : string -> response)
    (w : world) :
  keeps w (fst (try_catch paymentIntents_create randomUUID p on_error w)).
Proof.
  unfold try_catch. pose proof (keeps_run p w) as H.
  destruct (run p w) as [w' r]. exact H.
Qed.

End Lifting.

Lemma exec_grows {A : Type} (c : cmd A) (w : world) :
  store_grows (db w) (db (fst (exec c w))).
Proof.
  destruct c; simpl; try apply store_grows_refl.
  - apply upsert_grows.
  - apply insert_customer_account_grows.
  - apply insert_transaction_grows.
  - destruct (insert_webhook_event e (db w)) eqn:E; simpl;
      [apply store_grows_refl | exact (insert_webhook_event_grows _ _ _ E)].
  - apply insert_payment_intent_grows.
  - destruct (insert_idempotency_key k ep r (db w)) eqn:E; simpl;
      [apply store_grows_refl
      | exact (insert_idempotency_key_grows _ _ _ _ _ E)].
Qed.

(** Every request, alone or interleaved with another, only lets the
    store grow. *)
Lemma requests_grow :
  (forall req w, store_grows (db w) (db (fst (webhook req w))))
  /\ (forall req w, store_grows (db w) (db (fst (create req w))))
  /\ (forall (schedule : list bool) (p q : prog response) (w : world),
        store_grows (db w) (db (snd (interleave schedule p q w)))).
Proof.
  pose (keeps := fun w w' : world => store_grows (db w) (db w')).
  assert (Hr : forall w, keeps w w) by (intros; apply store_grows_refl).
  assert (Ht : forall w1 w2 w3, keeps w1 w2 -> keeps w2 w3 -> keeps w1 w3)
    by (intros w1 w2 w3; apply store_grows_trans).
  assert (He : forall (A : Type) (c : cmd A) (w : world),
             keeps w (fst (exec c w)))
    by (intros; apply exec_grows).
  split; [|split].
  - intros req w. exact (keeps_try_catch keeps Hr Ht He _ _ w).
  - intros req w. exact (keeps_try_catch keeps Hr Ht He _ _ w).
  - intros s p q w. exact (keeps_interleave keeps Hr Ht He s p q w).
Qed.

Lemma lookup_kept (k ep : string) (r : intent_response) (d d' : database) :
  store_grows d d' -> lookup k ep d = Some r -> lookup k ep d' = Some r.
Proof.
  intros (_ & _ & (l & Hl) & _). unfold lookup, select_idempotency_key.
  rewrite Hl, filter_app, map_app.
  destruct (map response_json (filter _ (idempotency_keys d)));
    [discriminate | auto].
Qed.

Lemma has_processed_kept (eid : string) (d d' : database) :
  store_grows d d' -> has_processed eid d = true ->
  has_processed eid d' = true.
Proof.
  intros (_ & _ & _ & (l & Hl) & _). rewrite !has_processed_existsb, Hl.
  rewrite existsb_app. intros ->. reflexivity.
Qed.

Lemma account_exists_kept (id : string) (d d' : database) :
  store_grows d d' -> account_exists id d = true ->
  account_exists id d' = true.
Proof.
  intros ((l & Hl) & _). unfold account_exists. rewrite Hl, existsb_app.
  intros ->. reflexivity.
Qed.

(** X1: the ledger is append-only.  A webhook delivery, a create-intent
    request and any interleaving of two requests leave every transaction
    of the store where it was and as it was: the new ledger is the old one
    followed by what was posted; a create-intent request posts nothing. *)
Theorem ledger_is_append_only
    (wreq : webhook_request) (ireq : intent_request)
    (schedule : list bool) (p q : prog response) (w : world) :
  (exists posted,
     transactions (db (fst (webhook wreq w)))
     = transactions (db w) ++ posted)
  /\ transactions (db (fst (create ireq w))) = transactions (db w)
  /\ (exists posted,
        transactions (db (snd (interleave schedule p q w)))
        = transactions (db w) ++ posted).
Proof.
  destruct requests_grow as (Hw & _ & Hi).
  split; [exact (proj1 (proj2 (Hw wreq w)))|].
  split; [exact (proj2 (create_ledger_frame _ _ ireq w))|].
  exact (proj1 (proj2 (Hi schedule p q w))).
Qed.

(** X2: a cached response is never replaced.  Once the cache answers a
    (key, endpoint) pair with a response, it answers with the same
    response after any webhook delivery, any create-intent request and
    any interleaving of two requests. *)
Theorem cached_response_is_kept
    (k ep : string) (r : intent_response)
    (wreq : webhook_request) (ireq : intent_request)
    (schedule : list bool) (p q : prog response) (w : world) :
  lookup k ep (db w) = Some r ->
  lookup k ep (db (fst (webhook wreq w))) = Some r
  /\ lookup k ep (db (fst (create ireq w))) = Some r
  /\ lookup k ep (db (snd (interleave schedule p q w))) = Some r.
Proof.
  intros H. destruct requests_grow as (Hw & Hc & Hi).
  split; [exact (lookup_kept k ep r _ _ (Hw wreq w) H)|].
  split; [exact (lookup_kept k ep r _ _ (Hc ireq w) H)|].
  exact (lookup_kept k ep r _ _ (Hi schedule p q w) H).
Qed.

(** X3: a processed event stays processed.  An event id recorded in the
    store is still recorded after any webhook delivery, any create-intent
    request and any interleaving of two requests. *)
Theorem processed_event_stays_processed
    (eid : string)
    (wreq : webhook_request) (ireq : intent_request)
    (schedule : list bool) (p q : prog response) (w : world) :
  has_processed eid (db w) = true ->
  has_processed eid (db (fst (webhook wreq w))) = true
  /\ has_processed eid (db (fst (create ireq w))) = true
  /\ has_processed eid (db (snd (interleave schedule p q w))) = true.
Proof.
  intros H. destruct requests_grow as (Hw & Hc & Hi).
  split; [exact (has_processed_kept eid _ _ (Hw wreq w) H)|].
  split; [exact (has_processed_kept eid _ _ (Hc ireq w) H)|].
  exact (has_processed_kept eid _ _ (Hi schedule p q w) H).
Qed.

(** X4: the mirror never loses a row nor rewrites an amount.  After any
    webhook delivery, any create-intent request and any interleaving of
    two requests, every row of the payment-intent mirror is still there
    with its provider, identifier, amount and currency; its status is
    what it was or "succeeded". *)
Theorem mirror_rows_are_kept
    (wreq : webhook_request) (ireq : intent_request)
    (schedule : list bool) (p q : prog response) (w : world) :
  mirror_kept (db w) (db (fst (webhook wreq w)))
  /\ mirror_kept (db w) (db (fst (create ireq w)))
  /\ mirror_kept (db w) (db (snd (interleave schedule p q w))).
Proof.
  destruct requests_grow as (Hw & Hc & Hi).
  split; [exact (proj2 (proj2 (proj2 (proj2 (Hw wreq w)))))|].
  split; [exact (proj2 (proj2 (proj2 (proj2 (Hc ireq w)))))|].
  exact (proj2 (proj2 (proj2 (proj2 (Hi schedule p q w))))).
Qed.

(** *** The webhook path beyond the payment branch *)

(** X6: an event of another kind is only recorded.  A verified,
    first-seen event whose type is not "payment_intent.succeeded" (a
    refund, for one) is acknowledged as fresh and appended to the
    processed events with its type and payload digest; accounts, ledger,
    mirror and cache are untouched, no UUID is drawn and the processor is
    not called. *)
Theorem other_kinds_are_only_recorded
    (req : webhook_request) (w : world) (ev : stripe_event) :
  verify req = inr ev ->
  has_processed (ev_id ev) (db w) = false ->
  succeeded ev = false ->
  exists w',
    webhook req w = (w', mk_response 200 (Ack false))
    /\ webhook_events (db w')
       = webhook_events (db w)
           ++ [mk_webhook_event (ev_id ev) (ev_type ev)
                 (sha256_hex (raw_body req))]
    /\ accounts (db w') = accounts (db w)
    /\ transactions (db w') = transactions (db w)
    /\ Store.payment_intents (db w') = Store.payment_intents (db w)
    /\ idempotency_keys (db w') = idempotency_keys (db w)
    /\ remote_calls w' = remote_calls w
    /\ uuid_draws w' = uuid_draws w.
Proof.
  intros Hv Hp Hs. eexists.
  split; [exact (first_seen_other _ _ _ _ _ req w ev Hv Hp Hs)|].
  repeat split.
Qed.

Lemma no_escrow_delivery
    (req : webhook_request) (w : world) (ev : stripe_event) :
  verify req = inr ev ->
  has_processed (ev_id ev) (db w) = false ->
  succeeded ev = true ->
  select_platform_escrow (db w) = [] ->
  exists w',
    webhook req w
    = (w', webhook_error
             "Cannot read properties of undefined (reading 'id')")
    /\ has_processed (ev_id ev) (db w') = false
    /\ select_platform_escrow (db w') = []
    /\ transactions (db w') = transactions (db w)
    /\ webhook_events (db w') = webhook_events (db w)
    /\ uuid_draws w' = S (uuid_draws w).
Proof.
  intros Hv Hp Hs He. eexists.
  split; [exact (first_seen_no_escrow _ _ _ _ _ req w ev Hv Hp Hs He)|].
  cbn [db uuid_draws].
  match goal with
  | |- context [insert_customer_account ?i ?n ?d] =>
      destruct (insert_customer_account_frame i n d) as (Htx & _ & _ & Hev);
      pose proof (escrow_accounts_insert_customer i n d) as Hesc
  end.
  split; [rewrite (has_processed_frame _ _ _ Hev); exact Hp|].
  split.
  { unfold select_platform_escrow in *. rewrite Hesc. exact He. }
  split; [exact Htx|]. split; [exact Hev | reflexivity].
Qed.

(** X7: without a platform-escrow account a payment event is never
    taken in.  However often a verified, not yet recorded "payment
    succeeded" event is delivered to a store that has no platform-escrow
    account, every delivery is answered 400 with the TypeError, the
    ledger and the processed events stay as they were, and each delivery
    draws one more UUID for a customer account. *)
Theorem no_escrow_deliveries_never_post
    (n : nat) (req : webhook_request) (w : world) (ev : stripe_event) :
  verify req = inr ev ->
  has_processed (ev_id ev) (db w) = false ->
  succeeded ev = true ->
  select_platform_escrow (db w) = [] ->
  exists w',
    deliveries n req w
    = (w', repeat (webhook_error
                     "Cannot read properties of undefined (reading 'id')")
                  n)
    /\ transactions (db w') = transactions (db w)
    /\ webhook_events (db w') = webhook_events (db w)
    /\ has_processed (ev_id ev) (db w') = false
    /\ select_platform_escrow (db w') = []
    /\ uuid_draws w' = (uuid_draws w + n)%nat.
Proof.
  intros Hv Hp Hs He. revert w Hp He.
  induction n as [|n IH]; intros w Hp He.
  - exists w. cbn. repeat split; auto.
  - destruct (no_escrow_delivery req w ev Hv Hp Hs He)
      as (w1 & H1 & Hp1 & He1 & Ht1 & Hw1 & Hu1).
    destruct (IH w1 Hp1 He1) as (w' & Hn & Ht & Hw & Hp' & He' & Hu).
    exists w'. cbn [deliver repeat]. rewrite H1, Hn.
    split; [reflexivity|]. repeat split; try congruence.
    rewrite Hu, Hu1. lia.
Qed.

(** X8: a payment event mints its own customer account.  On a first-seen
    "payment succeeded" event, with a platform-escrow account in the
    store and a drawn UUID that no account carries yet, exactly one
    account is appended: its id is the drawn UUID, its name is "Customer "
    followed by the processor's customer reference, or by "anon" when
    there is none, and its type is "customer". *)
Theorem payment_event_mints_customer_account
    (req : webhook_request) (w : world) (ev : stripe_event)
    (e0 : string) (rest : list string) :
  verify req = inr ev ->
  has_processed (ev_id ev) (db w) = false ->
  succeeded ev = true ->
  select_platform_escrow (db w) = e0 :: rest ->
  account_exists (randomUUID (uuid_draws w)) (db w) = false ->
  accounts (db (fst (webhook req w)))
  = accounts (db w)
      ++ [mk_account (randomUUID (uuid_draws w))
            (customer_name (ev_object ev)) "customer"]
  /\ uuid_draws (fst (webhook req w)) = S (uuid_draws w).
Proof.
  intros Hv Hp Hs He Hfresh.
  rewrite (first_seen_succeeded _ _ _ _ _ req w ev e0 rest Hv Hp Hs He).
  cbn [fst db accounts uuid_draws]. split; [|reflexivity].
  unfold insert_customer_account, account_id_taken, account_exists in *.
  cbn [accounts upsert_payment_intent_succeeded]. rewrite Hfresh.
  reflexivity.
Qed.

Lemma rejected_request (req : intent_request) (w : world) :
  validb req = false ->
  exists r, create req w = (w, r) /\ status r = 400.
Proof.
  unfold validb, post_payment_intents, try_catch, payment_intents.
  destruct (truthy (idempotency_header req)); simpl;
    [|intros _; eexists; split; reflexivity].
  unfold positive_integer.
  destruct (amount_cents req) as [ | | b | s | z | | ]; simpl;
    try (intros _; eexists; split; reflexivity).
  intros H. apply Z.ltb_ge in H. apply Z.leb_le in H. rewrite H.
  eexists; split; reflexivity.
Qed.

Lemma validb_valid (req : intent_request) : validb req = true -> valid req.
Proof. unfold validb, valid. intros H. apply andb_true_iff. exact H. Qed.

(** The three ways a create-intent request can go. *)
Lemma create_outcome (req : intent_request) (w : world) :
  (fst (create req w) = w
   /\ (validb req = false
       \/ exists r, lookup (key_of req) endpoint (db w) = Some r))
  \/ (validb req = true
      /\ lookup (key_of req) endpoint (db w) = None
      /\ exists d',
           fst (create req w)
           = mk_world d' (remote_calls w ++ [params_of req]) (uuid_draws w)
           /\ accounts d' = accounts (db w)
           /\ transactions d' = transactions (db w)
           /\ webhook_events d' = webhook_events (db w)).
Proof.
  destruct (validb req) eqn:V.
  2:{ left. destruct (rejected_request req w V) as (r & H & _).
      rewrite H. auto. }
  pose proof (validb_valid req V) as Hv.
  destruct (lookup (key_of req) endpoint (db w)) as [r|] eqn:L.
  { left. rewrite (create_hit _ _ req w r Hv L). eauto. }
  right. split; [reflexivity|]. split; [reflexivity|].
  pose proof (create_miss paymentIntents_create randomUUID req w Hv L)
    as Hm.
  cbv zeta in Hm. fold (params_of req) in Hm.
  destruct (paymentIntents_create (remote_calls w) (params_of req))
    as [m | pi].
  - rewrite Hm. eexists. split; [reflexivity|]. auto.
  - destruct Hm as (d' & Hc & _ & _ & Ha & Ht & He).
    rewrite Hc. exists d'. auto.
Qed.

(** X9: what each handler leaves alone.  A webhook delivery never calls
    the processor and never writes the idempotency cache; a create-intent
    request never draws a UUID and never writes accounts, ledger or
    processed events. *)
Theorem handlers_keep_to_their_tables
    (wreq : webhook_request) (ireq : intent_request) (w : world) :
  (remote_calls (fst (webhook wreq w)) = remote_calls w
   /\ idempotency_keys (db (fst (webhook wreq w)))
      = idempotency_keys (db w))
  /\ (uuid_draws (fst (create ireq w)) = uuid_draws w
      /\ accounts (db (fst (create ireq w))) = accounts (db w)
      /\ transactions (db (fst (create ireq w))) = transactions (db w)
      /\ webhook_events (db (fst (create ireq w)))
         = webhook_events (db w)).
Proof.
  split.
  - destruct (verify wreq) as [m | ev] eqn:Hv.
    { rewrite (rejected_delivery _ _ _ _ _ wreq w m Hv). auto. }
    destruct (has_processed (ev_id ev) (db w)) eqn:Hp.
    { rewrite (deduped_delivery _ _ _ _ _ wreq w ev Hv Hp). auto. }
    destruct (succeeded ev) eqn:Hs.
    2:{ rewrite (first_seen_other _ _ _ _ _ wreq w ev Hv Hp Hs). auto. }
    destruct (select_platform_escrow (db w)) as [|e0 rest] eqn:Esc.
    + rewrite (first_seen_no_escrow _ _ _ _ _ wreq w ev Hv Hp Hs Esc).
      cbn [fst db remote_calls]. split; [reflexivity|].
      match goal with
      | |- context [insert_customer_account ?i ?n ?d] =>
          destruct (insert_customer_account_frame i n d)
            as (_ & _ & Hik & _)
      end.
      rewrite Hik. reflexivity.
    + rewrite (first_seen_succeeded _ _ _ _ _ wreq w ev e0 rest
                 Hv Hp Hs Esc).
      auto.
  - destruct (create_outcome ireq w) as [[-> _] | (_ & _ & d' & -> & H)];
      [auto | exact (conj eq_refl H)].
Qed.

(** X10: what the processor is asked.  A create-intent request calls the
    processor exactly when it is valid and its key is not in the cache,
    and then once: with the request's amount, its currency or "usd", its
    metadata or none, and the client's key as the processor's own
    idempotency token.  Otherwise no call is made. *)
Theorem processor_is_called_once_with_the_client_key
    (req : intent_request) (w : world) :
  remote_calls (fst (create req w))
  = remote_calls w
      ++ (if validb req
             && match lookup (key_of req) endpoint (db w) with
                | None => true
                | Some _ => false
                end
          then [params_of req] else []).
Proof.
  destruct (create_outcome req w)
    as [[-> [V | [r L]]] | (V & L & d' & -> & _)].
  - rewrite V. symmetry. apply app_nil_r.
  - rewrite L, andb_false_r. symmetry. apply app_nil_r.
  - rewrite V, L. reflexivity.
Qed.

(** *** Looking a payment up *)

Lemma select_payment_fresh (pid : string) (d : database) :
  provider_id_taken pid d = false -> select_payment pid d = [].
Proof.
  unfold provider_id_taken, select_payment. intros H.
  apply filter_nil_existsb in H. rewrite H. reflexivity.
Qed.

Lemma select_payment_taken (pid : string) (d : database) :
  provider_id_taken pid d = true ->
  exists old rest, select_payment pid d = old :: rest
                   /\ view_provider_id old = pid.
Proof.
  unfold provider_id_taken, select_payment. intros H.
  destruct (filter _ (Store.payment_intents d)) as [|r l] eqn:F.
  - apply filter_nil_existsb in F. congruence.
  - eexists. eexists. split; [reflexivity|]. cbn.
    assert (In r (filter (fun r => provider_id r =? pid)
                         (Store.payment_intents d))) as Hin
      by (rewrite F; left; reflexivity).
    apply filter_In in Hin as [_ Hin]. apply String.eqb_eq. exact Hin.
Qed.

Lemma select_payment_inserted (pid : string) (a : Z) (c st : string)
    (d : database) :
  select_payment pid (insert_payment_intent pid a c st d)
  = if provider_id_taken pid d then select_payment pid d
    else [mk_payment_view pid a c st].
Proof.
  unfold insert_payment_intent. destruct (provider_id_taken pid d) eqn:T;
    [reflexivity|].
  pose proof (select_payment_fresh pid d T) as Hn.
  unfold select_payment in *. cbn [Store.payment_intents].
  rewrite filter_app, map_app, Hn. cbn. rewrite String.eqb_refl.
  reflexivity.
Qed.

Lemma select_payment_upserted (pid : string) (a : Z) (c : string)
    (d : database) :
  select_payment pid (upsert_payment_intent_succeeded pid a c d)
  = if provider_id_taken pid d
    then map (fun v => mk_payment_view (view_provider_id v)
                         (view_amount_cents v) (view_currency v)
                         "succeeded")
             (select_payment pid d)
    else [mk_payment_view pid a c "succeeded"].
Proof.
  unfold upsert_payment_intent_succeeded.
  destruct (provider_id_taken pid d) eqn:T.
  - unfold select_payment. cbn [Store.payment_intents].
    induction (Store.payment_intents d) as [|r l IH]; [reflexivity|].
    cbn [map filter]. destruct (provider_id r =? pid) eqn:E; cbn.
    + rewrite E. cbn. rewrite IH. reflexivity.
    + rewrite E. exact IH.
  - pose proof (select_payment_fresh pid d T) as Hn.
    unfold select_payment in *. cbn [Store.payment_intents].
    rewrite filter_app, map_app, Hn. cbn. rewrite String.eqb_refl.
    reflexivity.
Qed.

Lemma select_payment_same_mirror (pid : string) (d d' : database) :
  Store.payment_intents d' = Store.payment_intents d ->
  select_payment pid d' = select_payment pid d.
Proof. unfold select_payment. intros ->. reflexivity. Qed.

Lemma create_miss_mirror (req : intent_request) (w : world)
    (pi : stripe_payment_intent) :
  valid req ->
  lookup (key_of req) endpoint (db w) = None ->
  paymentIntents_create (remote_calls w) (params_of req) = inr pi ->
  Store.payment_intents (db (fst (create req w)))
  = Store.payment_intents
      (insert_payment_intent (spi_id pi) (integer_value (amount_cents req))
         (cp_currency (params_of req)) (spi_status pi) (db w))
  /\ snd (create req w)
     = mk_response 200
         (JsonIntent (mk_intent_response (spi_id pi) (spi_client_secret pi)
                        (spi_status pi))).
Proof.
  intros Hv Hl Hpi. destruct (valid_passes req Hv) as [H1 H2].
  apply lookup_none in Hl. unfold params_of, key_of in *.
  unfold post_payment_intents, try_catch, payment_intents.
  rewrite H1, H2. cbn [run exec]. rewrite Hl.
  cbn [run exec]. rewrite Hpi.
  cbn [run exec set_db db remote_calls uuid_draws cp_currency].
  set (d1 := insert_payment_intent _ _ _ _ (db w)).
  assert (Hsel : select_idempotency_key
                   (header_value (idempotency_header req)) endpoint d1 = []).
  { unfold d1, insert_payment_intent.
    destruct (provider_id_taken _ _); exact Hl. }
  destruct (insert_idempotency_key_fresh _ _
              (mk_intent_response (spi_id pi) (spi_client_secret pi)
                 (spi_status pi)) d1 Hsel)
    as (d' & Hins & _ & _ & _ & Hm & _).
  rewrite Hins. cbn. split; [exact Hm | reflexivity].
Qed.

(** Looking up an intent just created, in a store that rejects
    nothing. *)
Lemma created_intent_lookup
    (req : intent_request) (w : world) (pi : stripe_payment_intent) :
  valid req ->
  lookup (key_of req) endpoint (db w) = None ->
  paymentIntents_create (remote_calls w) (params_of req) = inr pi ->
  snd (create req w)
  = mk_response 200
      (JsonIntent (mk_intent_response (spi_id pi) (spi_client_secret pi)
                     (spi_status pi)))
  /\ payment_status (snd (get_payments (spi_id pi) (fst (create req w))))
     = 200
  /\ snd (get_payments (spi_id pi) (fst (create req w)))
     = if provider_id_taken (spi_id pi) (db w)
       then snd (get_payments (spi_id pi) w)
       else mk_payment_response 200
              (PaymentRow
                 (mk_payment_view (spi_id pi)
                    (integer_value (amount_cents req))
                    (match currency req with
                     | Some c => c
                     | None => "usd"
                     end)
                    (spi_status pi))).
Proof.
  intros Hv Hl Hpi.
  destruct (create_miss_mirror req w pi Hv Hl Hpi) as [Hm Hr].
  split; [exact Hr|].
  unfold get_payments. cbn [snd db].
  rewrite (select_payment_same_mirror _ _ _ Hm), select_payment_inserted.
  destruct (provider_id_taken (spi_id pi) (db w)) eqn:T.
  - destruct (select_payment_taken _ _ T) as (old & rest & -> & _).
    split; reflexivity.
  - split; reflexivity.
Qed.

(** X12: a succeeded payment shows as succeeded.  After the first
    delivery of a verified "payment succeeded" event, GET /v1/payments/<its
    payment reference> is answered 200 with status "succeeded", whether or
    not the store has a platform-escrow account.  The amount and currency
    shown are those of the row the mirror already had; only when it had
    none are they the amount received and the currency of the event. *)
Theorem succeeded_payment_is_found
    (req : webhook_request) (w : world) (ev : stripe_event) :
  verify req = inr ev ->
  has_processed (ev_id ev) (db w) = false ->
  succeeded ev = true ->
  let pi := ev_object ev in
  exists v,
    snd (get_payments (spi_id pi) (fst (webhook req w)))
    = mk_payment_response 200 (PaymentRow v)
    /\ view_provider_id v = spi_id pi
    /\ view_status v = "succeeded"
    /\ match select_payment (spi_id pi) (db w) with
       | [] => view_amount_cents v = spi_amount_received pi
               /\ view_currency v = spi_currency pi
       | old :: _ => view_amount_cents v = view_amount_cents old
                     /\ view_currency v = view_currency old
       end.
Proof.
  intros Hv Hp Hs pi.
  assert (Hm : Store.payment_intents (db (fst (webhook req w)))
               = Store.payment_intents
                   (upsert_payment_intent_succeeded (spi_id pi)
                      (spi_amount_received pi) (spi_currency pi) (db w))).
  { destruct (select_platform_escrow (db w)) as [|e0 rest] eqn:Esc.
    - rewrite (first_seen_no_escrow _ _ _ _ _ req w ev Hv Hp Hs Esc).
      cbn [fst db].
      match goal with
      | |- context [insert_customer_account ?i ?n ?d] =>
          destruct (insert_customer_account_frame i n d) as (_ & H & _)
      end.
      exact H.
    - rewrite (first_seen_succeeded _ _ _ _ _ req w ev e0 rest
                 Hv Hp Hs Esc).
      reflexivity. }
  unfold get_payments. cbn [snd].
  rewrite (select_payment_same_mirror _ _ _ Hm), select_payment_upserted.
  destruct (provider_id_taken (spi_id pi) (db w)) eqn:T.
  - destruct (select_payment_taken _ _ T) as (old & rest & -> & Hid).
    eexists. cbn [map]. split; [reflexivity|]. cbn. auto.
  - rewrite (select_payment_fresh _ _ T). eexists.
    split; [reflexivity|]. cbn. auto.
Qed.

(** *** What an answer tells the caller *)

(** A delivery handled alone by a store that rejects nothing. *)
Lemma delivery_alone (req : webhook_request) (w : world) :
  (status (snd (webhook req w)) = 200
   /\ exists ev,
        verify req = inr ev
        /\ has_processed (ev_id ev) (db (fst (webhook req w))) = true)
  \/ (status (snd (webhook req w)) = 400
      /\ transactions (db (fst (webhook req w))) = transactions (db w)
      /\ webhook_events (db (fst (webhook req w)))
         = webhook_events (db w)).
Proof.
  destruct (verify req) as [m | ev] eqn:Hv.
  { right. rewrite (rejected_delivery _ _ _ _ _ req w m Hv). auto. }
  destruct (has_processed (ev_id ev) (db w)) eqn:Hp.
  { left. rewrite (deduped_delivery _ _ _ _ _ req w ev Hv Hp).
    split; [reflexivity|]. exists ev. auto. }
  destruct (succeeded ev) eqn:Hs.
  2:{ left. rewrite (first_seen_other _ _ _ _ _ req w ev Hv Hp Hs).
      split; [reflexivity|]. exists ev. split; [reflexivity|].
      exact (has_processed_recorded
               (mk_webhook_event (ev_id ev) (ev_type ev)
                  (sha256_hex (raw_body req))) _ _ _ _ _). }
  destruct (select_platform_escrow (db w)) as [|e0 rest] eqn:Esc.
  - right.
    destruct (no_escrow_delivery req w ev Hv Hp Hs Esc)
      as (w' & H & _ & _ & Ht & He & _).
    rewrite H. auto.
  - left.
    rewrite (first_seen_succeeded _ _ _ _ _ req w ev e0 rest Hv Hp Hs Esc).
    split; [reflexivity|]. exists ev. split; [reflexivity|].
    exact (has_processed_recorded
             (mk_webhook_event (ev_id ev) (ev_type ev)
                (sha256_hex (raw_body req))) _ _ _ _ _).
Qed.

(** A create-intent request handled alone by a store that rejects
    nothing. *)
Lemma create_alone (req : intent_request) (w : world) :
  (exists r,
     snd (create req w) = mk_response 200 (JsonIntent r)
     /\ lookup (key_of req) endpoint (db (fst (create req w))) = Some r)
  \/ (status (snd (create req w)) <> 200
      /\ db (fst (create req w)) = db w).
Proof.
  destruct (validb req) eqn:V.
  2:{ right. destruct (rejected_request req w V) as (r & H & Hs).
      rewrite H. cbn [fst snd]. rewrite Hs. split; [discriminate|auto]. }
  pose proof (validb_valid req V) as Hv.
  destruct (lookup (key_of req) endpoint (db w)) as [r|] eqn:L.
  { left. exists r. rewrite (create_hit _ _ req w r Hv L). auto. }
  pose proof (create_miss paymentIntents_create randomUUID req w Hv L)
    as Hm.
  cbv zeta in Hm.
  destruct (paymentIntents_create _ _) as [m | pi].
  - right. rewrite Hm. split; [discriminate | reflexivity].
  - left. destruct Hm as (d' & Hc & Hl & _). eexists. rewrite Hc.
    split; [reflexivity | exact Hl].
Qed.

End Coverage.

(** ** The allowed origins *)

Section Origins.

Lemma split_comma_not_nil (s : string) : split_comma s <> [].
Proof.
  destruct s as [|c s]; simpl; [discriminate|].
  destruct (is_comma c); [discriminate|].
  destruct (split_comma s); discriminate.
Qed.

Lemma split_comma_pieces (s : string) :
  Forall (fun p => comma_free p = true) (split_comma s).
Proof.
  induction s as [|c s IH]; simpl; [repeat constructor|].
  destruct (is_comma c) eqn:C; [constructor; [reflexivity | exact IH]|].
  destruct (split_comma s) as [|p ps].
  - repeat constructor. simpl. rewrite C. reflexivity.
  - inversion IH as [|? ? Hp Hps]; subst. constructor; [|exact Hps].
    simpl. rewrite C, Hp. reflexivity.
Qed.

Lemma comma_free_trimStart (s : string) :
  comma_free s = true -> comma_free (trimStart s) = true.
Proof.
  induction s as [|c s IH]; simpl; [auto|].
  intros H. apply andb_true_iff in H as [Hc Hs].
  destruct (is_white_space c); [exact (IH Hs)|].
  simpl. rewrite Hc, Hs. reflexivity.
Qed.

Lemma comma_free_trimEnd (s : string) :
  comma_free s = true -> comma_free (trimEnd s) = true.
Proof.
  induction s as [|c s IH]; simpl; [auto|].
  intros H. apply andb_true_iff in H as [Hc Hs]. specialize (IH Hs).
  destruct (trimEnd s) as [|c' t].
  - destruct (is_white_space c); simpl; [reflexivity|].
    rewrite Hc. reflexivity.
  - cbn [comma_free]. rewrite Hc. exact IH.
Qed.

Lemma trimEnd_idempotent (s : string) : trimEnd (trimEnd s) = trimEnd s.
Proof.
  induction s as [|c s IH]; simpl; [reflexivity|].
  destruct (trimEnd s) as [|c' t] eqn:E.
  - destruct (is_white_space c) eqn:W; simpl; [reflexivity|].
    rewrite W. reflexivity.
  - cbn [trimEnd]. cbn [trimEnd] in IH. rewrite IH. reflexivity.
Qed.

Lemma trimStart_length (s : string) :
  (String.length (trimStart s) <= String.length s)%nat.
Proof.
  induction s as [|c s IH]; simpl; [lia|].
  destruct (is_white_space c); simpl; lia.
Qed.

(** What [trimStart] returns is empty or opens with a character that is
    not white space. *)
Lemma trimStart_head (s : string) :
  match trimStart s with
  | EmptyString => True
  | String c _ => is_white_space c = false
  end.
Proof.
  induction s as [|c s IH]; simpl; [exact I|].
  destruct (is_white_space c) eqn:W; [exact IH | exact W].
Qed.

Lemma trimEnd_head (c : ascii) (s : string) :
  is_white_space c = false ->
  exists t, trimEnd (String c s) = String c t.
Proof.
  intros W. simpl. destruct (trimEnd s); [|eauto].
  rewrite W. eauto.
Qed.

Lemma trim_idempotent (s : string) : trim (trim s) = trim s.
Proof.
  unfold trim. pose proof (trimStart_head s) as H.
  destruct (trimStart s) as [|c u]; [reflexivity|].
  destruct (trimEnd_head c u H) as (t & Ht).
  rewrite Ht. cbn [trimStart]. rewrite H, <- Ht.
  apply trimEnd_idempotent.
Qed.

Lemma trim_blank (p : string) :
  comma_free p = true -> (trim p =? "") = blank p.
Proof.
  induction p as [|c p IH]; [reflexivity|].
  cbn [comma_free blank]. intros H. apply andb_true_iff in H as [Hc Hp].
  apply negb_true_iff in Hc. rewrite Hc. cbn [orb].
  destruct (is_white_space c) eqn:W.
  - unfold trim in *. cbn [trimStart]. rewrite W. exact (IH Hp).
  - unfold trim. cbn [trimStart]. rewrite W.
    destruct (trimEnd_head c p W) as (t & ->). reflexivity.
Qed.

Lemma blank_pieces (s : string) :
  blank s = forallb blank (split_comma s).
Proof.
  induction s as [|c s IH]; [reflexivity|].
  cbn [blank split_comma]. destruct (is_comma c) eqn:C.
  - cbn. exact IH.
  - pose proof (split_comma_not_nil s) as Hne.
    destruct (split_comma s) as [|p ps]; [contradiction|].
    cbn [forallb blank] in *. rewrite C, IH. cbn [orb].
    apply andb_assoc.
Qed.

Lemma origins_nil (l : list string) :
  Forall (fun p => comma_free p = true) l ->
  (filter (fun s => negb (s =? "")) (map trim l) = []
   <-> forallb blank l = true).
Proof.
  induction 1 as [|p l Hp Hl IH]; [simpl; tauto|].
  cbn [map filter forallb]. rewrite <- (trim_blank p Hp).
  destruct (trim p =? ""); cbn; [exact IH | split; discriminate].
Qed.

Lemma split_comma_free (x : string) :
  comma_free x = true -> split_comma x = [x].
Proof.
  induction x as [|c x IH]; [reflexivity|].
  cbn [comma_free split_comma]. intros H.
  apply andb_true_iff in H as [Hc Hx]. apply negb_true_iff in Hc.
  rewrite Hc, (IH Hx). reflexivity.
Qed.

Lemma split_comma_app (x rest : string) :
  comma_free x = true ->
  split_comma (x ++ String "," rest) = x :: split_comma rest.
Proof.
  induction x as [|c x IH]; [reflexivity|].
  cbn [comma_free]. intros H.
  apply andb_true_iff in H as [Hc Hx]. apply negb_true_iff in Hc.
  cbn [append split_comma]. rewrite Hc, (IH Hx). reflexivity.
Qed.

Lemma split_comma_concat (x : string) (l : list string) :
  Forall (fun p => comma_free p = true) (x :: l) ->
  split_comma (String.concat "," (x :: l)) = x :: l.
Proof.
  revert x. induction l as [|y l IH]; intros x H.
  - inversion H; subst. cbn. apply split_comma_free. assumption.
  - inversion H as [|? ? Hx Hl]; subst.
    change (String.concat "," (x :: y :: l))
      with (x ++ String "," (String.concat "," (y :: l)))%string.
    rewrite (split_comma_app _ _ Hx), (IH y Hl). reflexivity.
Qed.

(** X13: every allowed origin is clean.  Whatever ALLOWED_ORIGINS holds,
    each origin the middleware is given is not empty, contains no comma
    and has no white space at either end. *)
Theorem origins_are_clean (ALLOWED_ORIGINS : option string) (o : string) :
  In o (origins ALLOWED_ORIGINS) -> clean_origin o.
Proof.
  unfold origins. intros H. apply filter_In in H as [Hin Hne].
  apply in_map_iff in Hin as (p & <- & Hp).
  pose proof (split_comma_pieces
                match ALLOWED_ORIGINS with Some s => s | None => "" end)
    as Hall.
  rewrite Forall_forall in Hall. specialize (Hall p Hp).
  split; [|split].
  - intros E. rewrite E in Hne. discriminate.
  - unfold trim. apply comma_free_trimEnd, comma_free_trimStart, Hall.
  - apply trim_idempotent.
Qed.

Lemma clean_origins_pass (l : list string) :
  Forall clean_origin l ->
  filter (fun s => negb (s =? "")) (map trim l) = l.
Proof.
  induction 1 as [|p l' (Hne & _ & Ht) Hl IH]; [reflexivity|].
  cbn [map filter]. rewrite Ht.
  destruct (p =? "") eqn:E; [apply String.eqb_eq in E; contradiction|].
  cbn. rewrite IH. reflexivity.
Qed.

(** X14: a list of clean origins survives the configuration.  Joining
    one or more clean origins with commas into ALLOWED_ORIGINS gives the
    CORS middleware exactly that list as its [origin] option, in that
    order. *)
Theorem origins_round_trip (l : list string) :
  Forall clean_origin l -> l <> [] ->
  cors_origin_option (Some (String.concat "," l)) = OriginList l.
Proof.
  intros H Hne. unfold cors_origin_option, origins.
  destruct l as [|x l]; [contradiction|].
  rewrite split_comma_concat.
  - rewrite (clean_origins_pass _ H). reflexivity.
  - apply Forall_forall. intros p Hp. rewrite Forall_forall in H.
    exact (proj1 (proj2 (H p Hp))).
Qed.

(** X15: when every origin is allowed.  The middleware gets [origin:
    true], which accepts any origin, exactly when ALLOWED_ORIGINS is
    unset or holds nothing but commas and white space. *)
Theorem any_origin_iff_blank (ALLOWED_ORIGINS : option string) :
  cors_origin_option ALLOWED_ORIGINS = OriginTrue
  <-> blank (match ALLOWED_ORIGINS with Some s => s | None => "" end)
      = true.
Proof.
  rewrite blank_pieces, <- origins_nil by apply split_comma_pieces.
  unfold cors_origin_option, origins.
  destruct (filter _ _); split; intros H; try reflexivity;
    discriminate.
Qed.

End Origins.

(** ** The further properties at work *)

Lemma cached_response_is_kept_witness :
  lookup "k1" endpoint
    (db (fst (Scenario.webhook Scenario.evt_1 (fst Scenario.first_k1))))
  = Some Scenario.stored_k1
  /\ lookup "k1" endpoint
       (db (fst (Scenario.create Scenario.retry_eur
                   (fst Scenario.first_k1))))
     = Some Scenario.stored_k1
  /\ lookup "k1" endpoint
       (db (snd (Scenario.in_flight Scenario.create_race
                   (payment_intents (Scenario.intent "k1" 2500))
                   (payment_intents Scenario.retry_eur)
                   (fst Scenario.first_k1))))
     = Some Scenario.stored_k1.
Proof.
  apply (cached_response_is_kept
           Scenario.constructEvent Scenario.secret Scenario.sha256_hex
           Scenario.paymentIntents_create Scenario.randomUUID
           "k1" endpoint Scenario.stored_k1 Scenario.evt_1
           Scenario.retry_eur Scenario.create_race
           (payment_intents (Scenario.intent "k1" 2500))
           (payment_intents Scenario.retry_eur)
           (fst Scenario.first_k1)).
  reflexivity.
Defined.

Lemma processed_event_stays_processed_witness :
  has_processed "evt_1"
    (db (fst (Scenario.webhook Scenario.evt_2 (fst Scenario.after_evt_1))))
  = true
  /\ has_processed "evt_1"
       (db (fst (Scenario.create (Scenario.intent "k1" 2500)
                   (fst Scenario.after_evt_1)))) = true
  /\ has_processed "evt_1"
       (db (snd (Scenario.in_flight Scenario.race
                   (Scenario.delivery Scenario.evt_1)
                   (Scenario.delivery Scenario.evt_0)
                   (fst Scenario.after_evt_1)))) = true.
Proof.
  apply (processed_event_stays_processed
           Scenario.constructEvent Scenario.secret Scenario.sha256_hex
           Scenario.paymentIntents_create Scenario.randomUUID
           "evt_1" Scenario.evt_2 (Scenario.intent "k1" 2500)
           Scenario.race (Scenario.delivery Scenario.evt_1)
           (Scenario.delivery Scenario.evt_0)
           (fst Scenario.after_evt_1)).
  reflexivity.
Defined.

Lemma other_kinds_are_only_recorded_witness :
  exists w',
    Scenario.webhook Scenario.evt_2 Scenario.seeded
    = (w', mk_response 200 (Ack false))
    /\ webhook_events (db w')
       = [mk_webhook_event "evt_2" "charge.refunded" "e3b0c44298fc1c14"]
    /\ accounts (db w') = [Scenario.escrow_account]
    /\ transactions (db w') = []
    /\ Store.payment_intents (db w') = []
    /\ idempotency_keys (db w') = []
    /\ remote_calls w' = []
    /\ uuid_draws w' = O.
Proof.
  apply (other_kinds_are_only_recorded
           Scenario.constructEvent Scenario.secret Scenario.sha256_hex
           Scenario.paymentIntents_create Scenario.randomUUID
           Scenario.evt_2 Scenario.seeded Tour.refund_event).
  - reflexivity.
  - reflexivity.
  - reflexivity.
Defined.

Lemma no_escrow_deliveries_never_post_witness :
  exists w',
    deliver Scenario.constructEvent Scenario.secret Scenario.sha256_hex
            Scenario.paymentIntents_create Scenario.randomUUID
            3 Scenario.evt_1 Scenario.unseeded
    = (w', repeat (webhook_error
                     "Cannot read properties of undefined (reading 'id')")
                  3)
    /\ transactions (db w') = []
    /\ webhook_events (db w') = []
    /\ has_processed "evt_1" (db w') = false
    /\ select_platform_escrow (db w') = []
    /\ uuid_draws w' = 3%nat.
Proof.
  apply (no_escrow_deliveries_never_post
           Scenario.constructEvent Scenario.secret Scenario.sha256_hex
           Scenario.paymentIntents_create Scenario.randomUUID
           3 Scenario.evt_1 Scenario.unseeded Tour.payment_event).
  - reflexivity.
  - reflexivity.
  - reflexivity.
  - reflexivity.
Defined.

Lemma payment_event_mints_customer_account_witness :
  accounts (db (fst (Scenario.webhook Scenario.evt_1 Scenario.seeded)))
  = [Scenario.escrow_account;
     mk_account "uuid-0" "Customer cus_1" "customer"]
  /\ uuid_draws (fst (Scenario.webhook Scenario.evt_1 Scenario.seeded))
     = 1%nat.
Proof.
  apply (payment_event_mints_customer_account
           Scenario.constructEvent Scenario.secret Scenario.sha256_hex
           Scenario.paymentIntents_create Scenario.randomUUID
           Scenario.evt_1 Scenario.seeded Tour.payment_event
           "acct_escrow" []).
  - reflexivity.
  - reflexivity.
  - reflexivity.
  - reflexivity.
  - reflexivity.
Defined.

Lemma succeeded_payment_is_found_witness :
  exists v,
    snd (get_payments "pi_X"
           (fst (Scenario.webhook Scenario.evt_1 Scenario.unseeded)))
    = mk_payment_response 200 (PaymentRow v)
    /\ view_provider_id v = "pi_X"
    /\ view_status v = "succeeded"
    /\ view_amount_cents v = 2500%Z /\ view_currency v = "usd".
Proof.
  apply (succeeded_payment_is_found
           Scenario.constructEvent Scenario.secret Scenario.sha256_hex
           Scenario.paymentIntents_create Scenario.randomUUID
           Scenario.evt_1 Scenario.unseeded Tour.payment_event).
  - reflexivity.
  - reflexivity.
  - reflexivity.
Defined.

Lemma origins_are_clean_witness : clean_origin "https://admin.example".
Proof.
  apply (origins_are_clean Tour.allowed "https://admin.example").
  right. left. reflexivity.
Defined.


(** ** When the store rejects a statement *)

Section RejectionFacts.

Variable constructEvent :
  list Byte.byte -> option string -> option string -> string + stripe_event.
Variable STRIPE_WEBHOOK_SECRET : option string.
Variable sha256_hex : list Byte.byte -> string.
Variable paymentIntents_create :
  list create_params -> create_params -> string + stripe_payment_intent.
Variable randomUUID : nat -> string.

Local Abbreviation exec := (exec paymentIntents_create randomUUID).
Local Abbreviation run := (run paymentIntents_create randomUUID).
Local Abbreviation exec_under :=
  (exec_under paymentIntents_create randomUUID).
Local Abbreviation run_under := (run_under paymentIntents_create randomUUID).
Local Abbreviation step_under :=
  (step_under paymentIntents_create randomUUID).
Local Abbreviation webhook :=
  (post_webhooks_stripe constructEvent STRIPE_WEBHOOK_SECRET sha256_hex
                        paymentIntents_create randomUUID).
Local Abbreviation create :=
  (post_payment_intents paymentIntents_create randomUUID).
Local Abbreviation webhook_under :=
  (post_webhooks_stripe_under constructEvent STRIPE_WEBHOOK_SECRET
                              sha256_hex paymentIntents_create randomUUID).
Local Abbreviation create_under :=
  (post_payment_intents_under paymentIntents_create randomUUID).
Local Abbreviation deliveries :=
  (deliver constructEvent STRIPE_WEBHOOK_SECRET sha256_hex
           paymentIntents_create randomUUID).
Local Abbreviation deliveries_under :=
  (deliver_under constructEvent STRIPE_WEBHOOK_SECRET sha256_hex
                 paymentIntents_create randomUUID).
Local Abbreviation verify req :=
  (constructEvent (raw_body req) (stripe_signature req)
                  STRIPE_WEBHOOK_SECRET).
Local Abbreviation body_of :=
  (handler_body constructEvent STRIPE_WEBHOOK_SECRET sha256_hex).

(** An effect under a plan is [exec], or a rejection that leaves the
    world alone. *)
Lemma exec_under_cases {A : Type} (f : plan) (c : cmd A) (w : world) :
  (exists f', exec_under f c w = (f', fst (exec c w), snd (exec c w)))
  \/ (exists f' m, is_query c = true /\ exec_under f c w = (f', w, inl m)).
Proof.
  unfold exec_under. destruct (is_query c); [|left; eauto].
  destruct f as [|[m|] rest]; [left; eauto | right; eauto | left; eauto].
Qed.

Lemma exec_under_accepting {A : Type} (f : plan) (c : cmd A) (w : world) :
  accepting f = true ->
  exists f', exec_under f c w = (f', fst (exec c w), snd (exec c w))
             /\ accepting f' = true.
Proof.
  intros H. unfold exec_under. destruct (is_query c); [|eauto].
  destruct f as [|[m|] rest]; [eauto | discriminate | eauto].
Qed.

Lemma run_under_accepting {R : Type} (p : prog R) (f : plan) (w : world) :
  accepting f = true ->
  exists f', run_under f p w = (f', fst (run p w), snd (run p w))
             /\ accepting f' = true.
Proof.
  revert f w. induction p as [r | m | A c k IH]; intros f w H;
    [exists f; auto | exists f; auto |].
  cbn [run_under run].
  destruct (exec_under_accepting f c w H) as (f1 & -> & H1).
  destruct (exec c w) as [w1 [m | x]]; cbn [fst snd]; [eauto|].
  exact (IH x f1 w1 H1).
Qed.

Lemma webhook_under_accepting (f : plan) (req : webhook_request)
    (w : world) :
  accepting f = true ->
  exists f', webhook_under f req w
             = (f', fst (webhook req w), snd (webhook req w))
             /\ accepting f' = true.
Proof.
  intros H.
  unfold post_webhooks_stripe_under, try_catch_under,
    post_webhooks_stripe, try_catch.
  destruct (run_under_accepting
              (webhooks_stripe constructEvent STRIPE_WEBHOOK_SECRET
                 sha256_hex req) f w H) as (f' & -> & H').
  destruct (run _ w) as [w' r]. eauto.
Qed.

Lemma create_under_accepting (f : plan) (req : intent_request)
    (w : world) :
  accepting f = true ->
  exists f', create_under f req w
             = (f', fst (create req w), snd (create req w))
             /\ accepting f' = true.
Proof.
  intros H.
  unfold post_payment_intents_under, try_catch_under,
    post_payment_intents, try_catch.
  destruct (run_under_accepting (payment_intents req) f w H)
    as (f' & -> & H').
  destruct (run _ w) as [w' r]. eauto.
Qed.

Lemma deliver_under_accepting (n : nat) (f : plan) (req : webhook_request)
    (w : world) :
  accepting f = true ->
  exists f', deliveries_under n f req w
             = (f', fst (deliveries n req w), snd (deliveries n req w))
             /\ accepting f' = true.
Proof.
  revert f w. induction n as [|n IH]; intros f w H; [exists f; auto|].
  cbn [deliver_under deliver].
  destruct (webhook_under_accepting f req w H) as (f1 & -> & H1).
  destruct (webhook req w) as [w1 r]. cbn [fst snd].
  destruct (IH f1 w1 H1) as (f2 & -> & H2).
  destruct (deliveries n req w1) as [w2 rs]. eauto.
Qed.

(** The ways a create-intent request can end, whatever the store
    rejects. *)
Lemma create_under_outcome (f : plan) (req : intent_request) (w : world) :
  exists f' w' r,
    create_under f req w = (f', w', r)
    /\ (length (remote_calls w') <= length (remote_calls w) + 1)%nat
    /\ (length (Store.payment_intents (db w'))
        <= length (Store.payment_intents (db w)) + 1)%nat
    /\ accounts (db w') = accounts (db w)
    /\ transactions (db w') = transactions (db w)
    /\ webhook_events (db w') = webhook_events (db w)
    /\ ((exists ir,
           r = mk_response 200 (JsonIntent ir)
           /\ lookup (key_of req) endpoint (db w') = Some ir)
        \/ (status r <> 200
            /\ idempotency_keys (db w') = idempotency_keys (db w))).
Proof.
  unfold post_payment_intents_under, try_catch_under, payment_intents.
  destruct (negb (truthy _)).
  { do 3 eexists. split; [reflexivity|]. cbn.
    repeat split; try lia. right. split; [discriminate | reflexivity]. }
  destruct (_ || _).
  { do 3 eexists. split; [reflexivity|]. cbn.
    repeat split; try lia. right. split; [discriminate | reflexivity]. }
  cbn [run_under].
  destruct (exec_under_cases f
              (SelectIdempotencyKey (header_value (idempotency_header req))
                 endpoint) w) as [(f1 & E) | (f1 & m & _ & E)];
    rewrite E; clear E; cbn [exec fst snd].
  2:{ do 3 eexists. split; [reflexivity|]. cbn.
      repeat split; try lia. right. split; [discriminate | reflexivity]. }
  destruct (select_idempotency_key _ _ (db w)) as [|r0 rows] eqn:Sel.
  2:{ do 3 eexists. split; [reflexivity|]. cbn.
      repeat split; try lia. left. exists r0. split; [reflexivity|].
      unfold lookup, key_of. rewrite Sel. reflexivity. }
  cbn [run_under].
  match goal with
  | |- context [exec_under f1 ?c w] =>
      destruct (exec_under_cases f1 c w) as [(f2 & E) | (f2 & m & Q & _)];
      [rewrite E; clear E; cbn [exec fst snd] | discriminate Q]
  end.
  destruct (paymentIntents_create _ _) as [m | pi].
  { do 3 eexists. split; [reflexivity|]. cbn. rewrite length_app. cbn.
    repeat split; try lia. right. split; [discriminate | reflexivity]. }
  cbn [run_under].
  match goal with
  | |- context [exec_under f2 ?c ?w1] =>
      destruct (exec_under_cases f2 c w1) as [(f3 & E) | (f3 & m & _ & E)];
      rewrite E; clear E; cbn [exec fst snd]
  end.
  2:{ do 3 eexists. split; [reflexivity|]. cbn. rewrite length_app. cbn.
      repeat split; try lia. right. split; [discriminate | reflexivity]. }
  cbn [run_under set_db db remote_calls uuid_draws].
  set (d1 := insert_payment_intent _ _ _ _ (db w)).
  assert (Hd1 : (length (Store.payment_intents d1)
                 <= length (Store.payment_intents (db w)) + 1)%nat
                /\ accounts d1 = accounts (db w)
                /\ transactions d1 = transactions (db w)
                /\ webhook_events d1 = webhook_events (db w)
                /\ idempotency_keys d1 = idempotency_keys (db w)).
  { unfold d1, insert_payment_intent.
    destruct (provider_id_taken _ _); cbn; try rewrite length_app; cbn;
      repeat split; lia. }
  destruct Hd1 as (Hlen & Hacc & Htx & Hev & Hik).
  match goal with
  | |- context [exec_under f3 ?c ?w1] =>
      destruct (exec_under_cases f3 c w1) as [(f4 & E) | (f4 & m & _ & E)];
      rewrite E; clear E;
      cbn [exec fst snd db set_db remote_calls uuid_draws]
  end.
  2:{ do 3 eexists. split; [reflexivity|].
      cbn [db remote_calls status set_db]. rewrite length_app. cbn.
      repeat split; try lia; try assumption.
      right. split; [discriminate | exact Hik]. }
  assert (Hsel : select_idempotency_key
                   (header_value (idempotency_header req)) endpoint d1 = []).
  { unfold select_idempotency_key in *. rewrite Hik. exact Sel. }
  destruct (insert_idempotency_key_fresh _ _
              (mk_intent_response (spi_id pi) (spi_client_secret pi)
                 (spi_status pi)) d1 Hsel)
    as (d' & Hins & Hsel' & Hacc' & Htx' & Hpi' & Hev').
  rewrite Hins. do 3 eexists. split; [reflexivity|].
  cbn [db remote_calls set_db fst]. rewrite length_app. cbn [length].
  rewrite Hacc', Htx', Hpi', Hev'.
  repeat split; try lia; try assumption.
  left. eexists. split; [reflexivity|].
  unfold lookup, key_of. rewrite Hsel'. reflexivity.
Qed.

Lemma run_under_bind {A B : Type} (p : prog A) (g : A -> prog B)
    (f : plan) (w : world) :
  run_under f (bind p g) w
  = let '(f', w', r) := run_under f p w in
    match r with
    | inl m => (f', w', inl m)
    | inr a => run_under f' (g a) w'
    end.
Proof.
  revert f w. induction p as [a | m | X c k IH]; intros f w;
    cbn [bind run_under]; try reflexivity.
  destruct (exec_under f c w) as [[f1 w1] [m | x]]; [reflexivity | apply IH].
Qed.

Lemma insert_webhook_event_recorded (e : webhook_event) (d d' : database) :
  insert_webhook_event e d = inr d' ->
  has_processed (event_id e) d' = true.
Proof.
  unfold insert_webhook_event. destruct (event_id_taken _ d);
    [discriminate|].
  intros H. injection H as <-. apply has_processed_recorded.
Qed.

Ltac query :=
  match goal with
  | |- context [exec_under ?f ?c ?w] =>
      let E := fresh "E" in
      let Q := fresh "Q" in
      destruct (exec_under_cases f c w) as [(? & E) | (? & ? & Q & E)];
      [rewrite E; clear E
      | try discriminate Q; rewrite E; clear E Q];
      cbn [exec fst snd db set_db remote_calls uuid_draws run_under]
  end.

Ltac refused :=
  do 3 eexists; (split; [reflexivity|]);
  (split;
   [right; (split; [reflexivity|]); cbn [db set_db];
    try rewrite
      (proj2 (proj2 (proj2 (insert_customer_account_frame _ _ _))));
    reflexivity
   |left; cbn [db set_db];
    try rewrite (proj1 (insert_customer_account_frame _ _ _));
    reflexivity]).

(** The ways a webhook delivery can end, whatever the store rejects. *)
Lemma webhook_under_outcome (f : plan) (req : webhook_request)
    (w : world) :
  exists f' w' r,
    webhook_under f req w = (f', w', r)
    /\ ((status r = 200
         /\ exists ev,
              verify req = inr ev
              /\ has_processed (ev_id ev) (db w') = true)
        \/ (status r = 400
            /\ webhook_events (db w') = webhook_events (db w)))
    /\ (transactions (db w') = transactions (db w)
        \/ exists ev e0 rest,
             verify req = inr ev /\ succeeded ev = true
             /\ select_platform_escrow (db w) = e0 :: rest
             /\ transactions (db w')
                = transactions (db w)
                    ++ [ledger_entry (randomUUID (uuid_draws w)) e0
                          (ev_object ev)]).
Proof.
  unfold post_webhooks_stripe_under, try_catch_under, webhooks_stripe.
  destruct (verify req) as [m | ev] eqn:Hv; [cbn; refused|].
  cbn [run_under]. query; [|refused].
  destruct (0 <? length (select_webhook_event (ev_id ev) (db w)))%nat
    eqn:Hp.
  { do 3 eexists. split; [reflexivity|]. split; [|left; reflexivity].
    left. split; [reflexivity|].
    exists ev. split; [reflexivity | exact Hp]. }
  rewrite run_under_bind.
  assert (Hrecord :
    forall f0 w0,
      webhook_events (db w0) = webhook_events (db w) ->
      exists f' w' r,
        (let '(f', w', r) :=
           run_under f0
             (await InsertWebhookEvent
                      (mk_webhook_event (ev_id ev) (ev_type ev)
                         (sha256_hex (raw_body req))) ;;
              Ret (mk_response 200 (Ack false))) w0 in
         (f', w', match r with
                  | inl m => webhook_error m
                  | inr x => x
                  end)) = (f', w', r)
        /\ ((status r = 200
             /\ exists ev0,
                  @inr string stripe_event ev = inr ev0
                  /\ has_processed (ev_id ev0) (db w') = true)
            \/ (status r = 400
                /\ webhook_events (db w') = webhook_events (db w)))
        /\ transactions (db w') = transactions (db w0)).
  { intros f0 w0 H0. cbn [run_under]. query.
    - destruct (insert_webhook_event _ (db w0)) as [m | d'] eqn:Ins;
        cbn [fst snd].
      + do 3 eexists. split; [reflexivity|]. split; [|reflexivity].
        right. split; [reflexivity | exact H0].
      + do 3 eexists. split; [reflexivity|]. split.
        * left. split; [reflexivity|]. exists ev. split; [reflexivity|].
          exact (insert_webhook_event_recorded _ _ _ Ins).
        * unfold insert_webhook_event in Ins.
          destruct (event_id_taken _ _); [discriminate|].
          injection Ins as <-. reflexivity.
    - do 3 eexists. split; [reflexivity|]. split; [|reflexivity].
      right. split; [reflexivity | exact H0]. }
  destruct (ev_type ev =? "payment_intent.succeeded") eqn:Hs.
  2:{ assert (Hskip : (if ev_type ev =? "charge.refunded"
                       then @Ret unit tt else Ret tt) = Ret tt)
        by (destruct (ev_type ev =? "charge.refunded"); reflexivity).
      rewrite Hskip. cbn [run_under].
      destruct (Hrecord x w eq_refl) as (f' & w' & r & E & A & T).
      exists f', w', r. split; [exact E|]. split; [exact A|].
      left. exact T. }
  cbn [run_under]. query; [|refused].
  query; [|refused].
  query.
  query; [|refused].
  rewrite select_platform_escrow_upsert.
  destruct (select_platform_escrow (db w)) as [|e0 rest] eqn:Esc.
  { cbn [run_under]. refused. }
  cbn [run_under]. query; [|refused].
  match goal with
  | |- context [exec_under ?f0 (InsertWebhookEvent _) ?w0] =>
      destruct (Hrecord f0 w0) as (f' & w' & r & E & A & T)
  end.
  { cbn [db set_db insert_transaction webhook_events].
    rewrite (proj2 (proj2 (proj2 (insert_customer_account_frame _ _ _)))).
    reflexivity. }
  exists f', w', r. split; [exact E|]. split; [exact A|].
  right. exists ev, e0, rest. split; [reflexivity|].
  split; [exact Hs|]. split; [reflexivity|].
  rewrite T. cbn [db set_db insert_transaction transactions].
  rewrite (proj1 (insert_customer_account_frame _ _ _)). reflexivity.
Qed.

(** *** Posting to accounts that exist *)

Local Abbreviation robust := (robust paymentIntents_create randomUUID).
Local Abbreviation postings_sound :=
  (postings_sound paymentIntents_create randomUUID).

Lemma robust_grows {R : Type} (p : prog R) (d d' : database) :
  robust p d -> store_grows d d' -> robust p d'.
Proof.
  destruct p as [r | m | A c k]; cbn; auto.
  intros H Hg w Hw. apply H. exact (store_grows_trans _ _ _ Hg Hw).
Qed.

Lemma robust_bind {A B : Type} (p : prog A) (g : A -> prog B)
    (d : database) :
  robust p d -> (forall a d', robust (g a) d') -> robust (bind p g) d.
Proof.
  intros H Hg. revert d H.
  induction p as [a | m | X c k IH]; intros d H; cbn [bind];
    [apply Hg | exact I |].
  intros w Hw. destruct (H w Hw) as [Hok Hk]. split; [exact Hok|].
  intros x w' E. exact (IH x (db w') (Hk x w' E)).
Qed.

Lemma exec_keeps_ledger {A : Type} (c : cmd A) (w : world) :
  posting_ok c (db w) = true ->
  ledger_references_accounts (db w) = true ->
  ledger_references_accounts (db (fst (exec c w))) = true.
Proof.
  intros Hok Hinv.
  pose proof (exec_grows paymentIntents_create randomUUID c w) as Hg.
  assert (Hacc : forall x, account_exists x (db w) = true ->
                           account_exists x (db (fst (exec c w))) = true)
    by (intros x; apply account_exists_kept; exact Hg).
  destruct c; cbn [posting_ok] in Hok;
    try (apply (ledger_references_accounts_mono (db w));
         [|exact Hacc | exact Hinv];
         cbn;
         unfold insert_customer_account, insert_webhook_event,
           insert_payment_intent, insert_idempotency_key;
         repeat match goal with
                | |- context [if ?b then _ else _] => destruct b
                end;
         reflexivity).
  unfold ledger_references_accounts, account_exists in *.
  cbn [exec fst db set_db insert_transaction transactions accounts].
  rewrite forallb_app, Hinv. cbn [forallb]. rewrite Hok. reflexivity.
Qed.

Lemma run_under_keeps_ledger {R : Type} (p : prog R) (f : plan)
    (w : world) :
  robust p (db w) ->
  ledger_references_accounts (db w) = true ->
  ledger_references_accounts (db (world_of (run_under f p w))) = true.
Proof.
  revert f w. induction p as [r | m | A c k IH]; intros f w H Hinv;
    [exact Hinv | exact Hinv |].
  cbn [run_under]. destruct (H w (store_grows_refl _)) as [Hok Hk].
  destruct (exec_under_cases f c w) as [(f1 & E) | (f1 & m & _ & E)];
    rewrite E; [|exact Hinv].
  pose proof (exec_keeps_ledger c w Hok Hinv) as Hinv1.
  destruct (exec c w) as [w1 [m | x]] eqn:Ex; cbn [fst snd] in *;
    [exact Hinv1|].
  exact (IH x f1 w1 (Hk x w1 eq_refl) Hinv1).
Qed.

Lemma robust_step_under {R : Type} (p : prog R) (f : plan) (w : world) :
  robust p (db w) ->
  next_posting_ok p (db w) = true
  /\ robust (snd (fst (step_under f p w))) (db (snd (step_under f p w)))
  /\ store_grows (db w) (db (snd (step_under f p w))).
Proof.
  destruct p as [r | m | A c k]; intros H;
    [repeat split; apply store_grows_refl
    | repeat split; apply store_grows_refl |].
  destruct (H w (store_grows_refl _)) as [Hok Hk].
  split; [exact Hok|]. cbn [step_under].
  destruct (exec_under_cases f c w) as [(f1 & E) | (f1 & m & _ & E)];
    rewrite E; cbn [fst snd]; [|split; [exact I | apply store_grows_refl]].
  pose proof (exec_grows paymentIntents_create randomUUID c w) as Hg.
  destruct (exec c w) as [w1 [m | x]] eqn:Ex; cbn [fst snd] in *;
    (split; [|exact Hg]); [exact I | exact (Hk x w1 eq_refl)].
Qed.

Lemma postings_sound_robust (schedule : list bool) (f : plan)
    (p q : prog response) (w : world) :
  robust p (db w) -> robust q (db w) ->
  postings_sound f schedule p q w = true.
Proof.
  revert f p q w. induction schedule as [|b s IH]; intros f p q w Hp Hq;
    [reflexivity|].
  cbn [postings_sound]. destruct b.
  - destruct (robust_step_under p f w Hp) as (Hok & Hp' & Hg).
    rewrite Hok. destruct (step_under f p w) as [[f' p'] w'].
    cbn [fst snd] in *. cbn [andb].
    exact (IH f' p' q w' Hp' (robust_grows q _ _ Hq Hg)).
  - destruct (robust_step_under q f w Hq) as (Hok & Hq' & Hg).
    rewrite Hok. destruct (step_under f q w) as [[f' q'] w'].
    cbn [fst snd] in *. cbn [andb].
    exact (IH f' p q' w' (robust_grows p _ _ Hp Hg) Hq').
Qed.

Ltac plain_step :=
  let w := fresh "w" in
  let Hg := fresh "Hg" in
  let x := fresh "x" in
  let w' := fresh "w'" in
  let E := fresh "E" in
  cbn [robust]; intros w Hg; (split; [reflexivity|]);
  intros x w' E; cbn [exec] in E.

Lemma robust_create (req : intent_request) (d : database) :
  robust (payment_intents req) d.
Proof.
  unfold payment_intents.
  destruct (negb (truthy _)); [exact I|].
  destruct (_ || _); [exact I|].
  plain_step. injection E as <- <-.
  destruct (select_idempotency_key _ _ _); [|exact I].
  plain_step. destruct (paymentIntents_create _ _); [discriminate|].
  injection E as <- <-.
  plain_step. injection E as <- <-.
  plain_step. destruct (insert_idempotency_key _ _ _ _); [discriminate|].
  injection E as <- <-. exact I.
Qed.

Lemma robust_webhook (req : webhook_request) (d : database) :
  robust (webhooks_stripe constructEvent STRIPE_WEBHOOK_SECRET sha256_hex
                          req) d.
Proof.
  unfold webhooks_stripe.
  destruct (verify req) as [m | ev]; [exact I|].
  plain_step. injection E as <- <-.
  destruct (0 <? _)%nat; [exact I|].
  apply robust_bind.
  2:{ intros [] d'. plain_step.
      destruct (insert_webhook_event _ _); [discriminate|].
      injection E as <- <-. exact I. }
  destruct (ev_type ev =? "payment_intent.succeeded");
    [|destruct (ev_type ev =? "charge.refunded"); exact I].
  cbv zeta.
  plain_step. injection E as <- <-.
  cbn [robust]. intros w2 Hg2. split; [reflexivity|].
  intros escrow w2' E2. cbn [exec] in E2. injection E2 as <- <-.
  cbn [robust]. intros w3 Hg3. split; [reflexivity|].
  intros id w3' E3. cbn [exec] in E3. injection E3 as <- <-.
  cbn [robust]. intros w4 Hg4. split; [reflexivity|].
  intros u w4' E4. cbn [exec] in E4. injection E4 as <- <-.
  destruct (select_platform_escrow (db w2)) as [|e0 rest] eqn:Esc;
    [exact I|].
  cbn [robust]. intros w5 Hg5. split; [|intros; exact I].
  cbn [posting_ok debit_account credit_account].
  cbn [db set_db] in Hg4, Hg5.
  apply andb_true_iff. split.
  - apply (account_exists_kept _ _ _ Hg5). apply account_exists_inserted.
  - apply (account_exists_kept _ _ _ Hg5).
    apply account_exists_insert_customer.
    apply (account_exists_kept _ _ _ Hg4).
    apply (account_exists_kept _ _ _ Hg3).
    exact (proj1 (proj2 (select_platform_escrow_exists e0 rest _ Esc))).
Qed.

Lemma robust_body (a : request) (d : database) : robust (body_of a) d.
Proof. destruct a; [apply robust_webhook | apply robust_create]. Qed.

(** *** The claims that depend on what the store accepts *)

(** C1 (as amended): deliveries handled one after the other, none of
    whose statements the store rejects.  For a verified payload whose
    event id is not yet recorded (and, for a "payment succeeded" event,
    with a platform-escrow account in the store), [n+1] deliveries in a
    row end with exactly one record of the event and with the ledger
    extended by exactly one transaction for a "payment succeeded" event
    and by none for another kind; the first delivery is acknowledged as
    fresh and every later one as deduped. *)
Theorem sequential_deliveries_exactly_once
    (n : nat) (f : plan) (req : webhook_request) (w : world)
    (ev : stripe_event) :
  accepting f = true ->
  verify req = inr ev ->
  has_processed (ev_id ev) (db w) = false ->
  (succeeded ev = true -> select_platform_escrow (db w) <> []) ->
  exists f' w',
    deliveries_under (S n) f req w
    = (f', w', mk_response 200 (Ack false)
               :: repeat (mk_response 200 (Ack true)) n)
    /\ transactions (db w')
       = transactions (db w)
           ++ (if succeeded ev
               then [ledger_entry (randomUUID (uuid_draws w))
                       (hd "" (select_platform_escrow (db w)))
                       (ev_object ev)]
               else [])
    /\ length (select_webhook_event (ev_id ev) (db w')) = 1%nat.
Proof.
  intros Hf Hv Hp He.
  destruct (deliver_under_accepting (S n) f req w Hf) as (f' & E & _).
  destruct (deliveries_in_a_row constructEvent STRIPE_WEBHOOK_SECRET
              sha256_hex paymentIntents_create randomUUID n req w ev
              Hv Hp He) as (w' & D & Ht & Hl).
  rewrite D in E. exists f', w'. auto.
Qed.


(** C4 (as amended): the accounts of a transaction exist when it is
    posted.  In any interleaving of two requests, and whatever statements
    the store rejects, every INSERT INTO transactions is issued in a store
    that holds both its debit and its credit account.  So if every
    transaction of the store debits and credits existing accounts, this
    still holds after any webhook delivery and after any create-intent
    request.  A transaction added by a delivery comes from a verified
    "payment succeeded" event and carries the amount the processor
    reported, as reported, and the payment reference.  When the store has
    no platform-escrow account a delivery adds no transaction. *)
Theorem ledger_accounts_exist_when_posted
    (f : plan) (schedule : list bool) (a b : request)
    (req : webhook_request) (ireq : intent_request) (w : world) :
  ledger_references_accounts (db w) = true ->
  postings_sound f schedule (body_of a) (body_of b) w = true
  /\ ledger_references_accounts (db (world_of (webhook_under f req w)))
     = true
  /\ ledger_references_accounts (db (world_of (create_under f ireq w)))
     = true
  /\ (forall t,
        In t (transactions (db (world_of (webhook_under f req w)))) ->
        In t (transactions (db w))
        \/ exists ev, verify req = inr ev /\ succeeded ev = true
                      /\ tx_amount_cents t
                         = spi_amount_received (ev_object ev)
                      /\ external_ref t = spi_id (ev_object ev))
  /\ (select_platform_escrow (db w) = [] ->
      transactions (db (world_of (webhook_under f req w)))
      = transactions (db w)).
Proof.
  intros Hinv.
  split; [apply postings_sound_robust; apply robust_body|].
  split.
  { pose proof (run_under_keeps_ledger
                  (webhooks_stripe constructEvent STRIPE_WEBHOOK_SECRET
                     sha256_hex req) f w (robust_webhook req _) Hinv) as H.
    unfold post_webhooks_stripe_under, try_catch_under, world_of in *.
    destruct (run_under f _ w) as [[f' w'] r]. exact H. }
  split.
  { pose proof (run_under_keeps_ledger (payment_intents ireq) f w
                  (robust_create ireq _) Hinv) as H.
    unfold post_payment_intents_under, try_catch_under, world_of in *.
    destruct (run_under f _ w) as [[f' w'] r]. exact H. }
  destruct (webhook_under_outcome f req w)
    as (f' & w' & r & E & _ & Hledger).
  rewrite E. unfold world_of. cbn [fst snd].
  destruct Hledger as [Hsame | (ev & e0 & rest & Hv & Hs & Hesc & Hnew)].
  - rewrite Hsame. split; [auto | reflexivity].
  - rewrite Hnew. split.
    + intros t Ht. apply in_app_or in Ht as [Ht | [<- | []]];
        [left; exact Ht|].
      right. exists ev. repeat split; assumption.
    + intros Hnone. rewrite Hnone in Hesc. discriminate.
Qed.

(** C9 (as amended): a first-seen "payment succeeded" event, when the
    store holds a platform-escrow account and rejects none of the
    delivery's statements.  The delivery is acknowledged; the mirror
    holds the processor's payment reference with status "succeeded"; a
    customer account is appended for the counterparty, with a freshly
    drawn identifier, the name "Customer " followed by the processor's
    customer reference (or "anon") and the type "customer", unless an
    account already carries the drawn identifier, in which case none is
    created; the escrow account is the one found in the store, none is
    created; exactly one transaction is appended, debiting the drawn
    identifier and crediting escrow for the reported amount and currency
    with the payment reference as external reference; the event is
    recorded. *)
Theorem payment_succeeded_first_seen
    (f : plan) (req : webhook_request) (w : world) (ev : stripe_event)
    (e0 : string) (rest : list string) :
  accepting f = true ->
  verify req = inr ev ->
  has_processed (ev_id ev) (db w) = false ->
  succeeded ev = true ->
  select_platform_escrow (db w) = e0 :: rest ->
  let pi := ev_object ev in
  let customer := randomUUID (uuid_draws w) in
  exists f' w',
    webhook_under f req w = (f', w', mk_response 200 (Ack false))
    /\ (exists row, In row (Store.payment_intents (db w'))
                    /\ provider_id row = spi_id pi
                    /\ pi_status row = "succeeded")
    /\ (forall row, In row (Store.payment_intents (db w')) ->
                    provider_id row = spi_id pi ->
                    pi_status row = "succeeded")
    /\ accounts (db w')
       = (if account_exists customer (db w) then accounts (db w)
          else accounts (db w)
                 ++ [mk_account customer (customer_name pi) "customer"])
    /\ account_exists customer (db w') = true
    /\ (exists a, In a (accounts (db w')) /\ acc_id a = e0
                  /\ acc_type a = "platform_escrow")
    /\ filter (fun a => acc_type a =? "platform_escrow") (accounts (db w'))
       = filter (fun a => acc_type a =? "platform_escrow") (accounts (db w))
    /\ transactions (db w')
       = transactions (db w)
           ++ [mk_transaction customer e0 (spi_amount_received pi)
                 (spi_currency pi) (spi_id pi)]
    /\ webhook_events (db w')
       = webhook_events (db w)
           ++ [mk_webhook_event (ev_id ev) (ev_type ev)
                 (sha256_hex (raw_body req))]
    /\ has_processed (ev_id ev) (db w') = true.
Proof.
  intros Hf Hv Hp Hs He pi customer.
  destruct (webhook_under_accepting f req w Hf) as (f' & E & _).
  destruct (first_seen_payment constructEvent STRIPE_WEBHOOK_SECRET
              sha256_hex paymentIntents_create randomUUID req w ev e0 rest
              Hv Hp Hs He)
    as (w' & D & Hm1 & Hm2 & Hc & Hesc & Hfil & Htx & Hrec).
  fold pi customer in Hm1, Hm2, Hc, Htx.
  rewrite D in E. cbn [fst snd] in E. exists f', w'.
  split; [exact E|]. split; [exact Hm1|]. split; [exact Hm2|].
  assert (Hw : w' = fst (webhook req w)) by (rewrite D; reflexivity).
  split.
  { rewrite Hw.
    rewrite (first_seen_succeeded constructEvent STRIPE_WEBHOOK_SECRET
               sha256_hex paymentIntents_create randomUUID req w ev e0
               rest Hv Hp Hs He).
    cbn [fst db accounts].
    unfold insert_customer_account, account_id_taken, account_exists.
    cbn [accounts upsert_payment_intent_succeeded]. fold customer.
    destruct (existsb _ (accounts (db w))); reflexivity. }
  split; [exact Hc|]. split; [exact Hesc|]. split; [exact Hfil|].
  split; [exact Htx|]. split; [|exact Hrec].
  rewrite Hw.
  rewrite (first_seen_succeeded constructEvent STRIPE_WEBHOOK_SECRET
             sha256_hex paymentIntents_create randomUUID req w ev e0
             rest Hv Hp Hs He).
  reflexivity.
Qed.

(** *** What an answer tells the caller, whatever the store rejects *)

(** X11: a created intent can be looked up.  After a valid create-intent
    request that misses the cache, whose processor call answers and none
    of whose statements the store rejects, the request is answered 200
    with the intent's id, and GET /v1/payments/<that id> is answered 200:
    with the requested amount, the currency sent and the processor's
    status when the mirror had no row for the id, and with the row the
    mirror already had otherwise (the insert does nothing on
    conflict). *)
Theorem created_intent_is_found
    (f : plan) (req : intent_request) (w : world)
    (pi : stripe_payment_intent) :
  accepting f = true ->
  valid req ->
  lookup (key_of req) endpoint (db w) = None ->
  paymentIntents_create (remote_calls w) (params_of req) = inr pi ->
  answer_of (create_under f req w)
  = mk_response 200
      (JsonIntent (mk_intent_response (spi_id pi) (spi_client_secret pi)
                     (spi_status pi)))
  /\ payment_status
       (snd (get_payments (spi_id pi) (world_of (create_under f req w))))
     = 200
  /\ snd (get_payments (spi_id pi) (world_of (create_under f req w)))
     = if provider_id_taken (spi_id pi) (db w)
       then snd (get_payments (spi_id pi) w)
       else mk_payment_response 200
              (PaymentRow
                 (mk_payment_view (spi_id pi)
                    (integer_value (amount_cents req))
                    (match currency req with
                     | Some c => c
                     | None => "usd"
                     end)
                    (spi_status pi))).
Proof.
  intros Hf Hv Hl Hpi.
  destruct (create_under_accepting f req w Hf) as (f' & -> & _).
  exact (created_intent_lookup paymentIntents_create randomUUID req w pi
           Hv Hl Hpi).
Qed.

(** X16: an acknowledged delivery is a recorded one.  Whatever statements
    the store rejects, a webhook delivery is answered either 200, and
    then its event id is recorded in the store, or 400, and then the
    processed events are as they were: a delivery that fails is never
    recorded, so the sender's retry is not taken for a duplicate.  When
    the store rejects nothing, a delivery answered 400 has posted no
    transaction either. *)
Theorem acknowledged_iff_recorded
    (f : plan) (req : webhook_request) (w : world) :
  exists f' w' r,
    webhook_under f req w = (f', w', r)
    /\ ((status r = 200
         /\ exists ev,
              verify req = inr ev
              /\ has_processed (ev_id ev) (db w') = true)
        \/ (status r = 400
            /\ webhook_events (db w') = webhook_events (db w)))
    /\ (accepting f = true -> status r = 400 ->
        transactions (db w') = transactions (db w)).
Proof.
  destruct (webhook_under_outcome f req w) as (f' & w' & r & E & A & _).
  exists f', w', r. split; [exact E|]. split; [exact A|].
  intros Hf Hs.
  destruct (webhook_under_accepting f req w Hf) as (g & E' & _).
  rewrite E in E'. injection E' as _ -> ->.
  destruct (delivery_alone constructEvent STRIPE_WEBHOOK_SECRET sha256_hex
              paymentIntents_create randomUUID req w)
    as [(H200 & _) | (_ & Ht & _)]; [congruence | exact Ht].
Qed.

(** X17: a create-intent answer of 200 is a cached one.  Whatever
    statements the store rejects, a create-intent request is answered
    either 200 with an intent, and then the cache holds exactly that
    response under the request's key, or with another status, and then
    the cache is as it was: a failed request is never cached.  When the
    store rejects nothing, a request not answered 200 leaves the whole
    store as it was. *)
Theorem answered_iff_cached
    (f : plan) (req : intent_request) (w : world) :
  exists f' w' r,
    create_under f req w = (f', w', r)
    /\ ((exists ir,
           r = mk_response 200 (JsonIntent ir)
           /\ lookup (key_of req) endpoint (db w') = Some ir)
        \/ (status r <> 200
            /\ idempotency_keys (db w') = idempotency_keys (db w)))
    /\ (accepting f = true -> status r <> 200 -> db w' = db w).
Proof.
  destruct (create_under_outcome f req w)
    as (f' & w' & r & E & _ & _ & _ & _ & _ & A).
  exists f', w', r. split; [exact E|]. split; [exact A|].
  intros Hf Hs.
  destruct (create_under_accepting f req w Hf) as (g & E' & _).
  rewrite E in E'. injection E' as _ -> ->.
  destruct (create_alone paymentIntents_create randomUUID req w)
    as [(ir & H200 & _) | (_ & Hd)]; [|exact Hd].
  rewrite H200 in Hs. exfalso. apply Hs. reflexivity.
Qed.

End RejectionFacts.

(** ** The revised properties at work *)

Lemma sequential_deliveries_exactly_once_witness :
  exists f' w',
    Tour.deliveries_under 3 [None; None] Scenario.evt_1 Scenario.seeded
    = (f', w', [mk_response 200 (Ack false); mk_response 200 (Ack true);
                mk_response 200 (Ack true)])
    /\ transactions (db w')
       = [mk_transaction "uuid-0" "acct_escrow" 2500 "usd" "pi_X"]
    /\ length (select_webhook_event "evt_1" (db w')) = 1%nat.
Proof.
  apply (sequential_deliveries_exactly_once
           Scenario.constructEvent Scenario.secret Scenario.sha256_hex
           Scenario.paymentIntents_create Scenario.randomUUID
           2 [None; None] Scenario.evt_1 Scenario.seeded
           Tour.payment_event).
  - reflexivity.
  - reflexivity.
  - reflexivity.
  - intros _. discriminate.
Defined.


Lemma ledger_accounts_exist_when_posted_witness :
  postings_sound Scenario.paymentIntents_create Scenario.randomUUID
    Tour.record_rejected Scenario.race
    (Scenario.delivery Scenario.evt_1) (Scenario.delivery Scenario.evt_0)
    (fst Scenario.after_evt_1) = true
  /\ ledger_references_accounts
       (db (world_of (Tour.webhook_under Tour.record_rejected
                        Scenario.evt_0 (fst Scenario.after_evt_1))))
     = true
  /\ ledger_references_accounts
       (db (world_of (Tour.create_under Tour.record_rejected
                        (Scenario.intent "k1" 2500)
                        (fst Scenario.after_evt_1)))) = true
  /\ (forall t,
        In t (transactions
                (db (world_of (Tour.webhook_under Tour.record_rejected
                                 Scenario.evt_0
                                 (fst Scenario.after_evt_1))))) ->
        In t (transactions (db (fst Scenario.after_evt_1)))
        \/ exists ev,
             Scenario.constructEvent (raw_body Scenario.evt_0)
               (stripe_signature Scenario.evt_0) Scenario.secret = inr ev
             /\ succeeded ev = true
             /\ tx_amount_cents t = spi_amount_received (ev_object ev)
             /\ external_ref t = spi_id (ev_object ev))
  /\ (select_platform_escrow (db (fst Scenario.after_evt_1)) = [] ->
      transactions
        (db (world_of (Tour.webhook_under Tour.record_rejected
                         Scenario.evt_0 (fst Scenario.after_evt_1))))
      = transactions (db (fst Scenario.after_evt_1))).
Proof.
  apply (ledger_accounts_exist_when_posted
           Scenario.constructEvent Scenario.secret Scenario.sha256_hex
           Scenario.paymentIntents_create Scenario.randomUUID
           Tour.record_rejected Scenario.race
           (Delivery Scenario.evt_1) (Delivery Scenario.evt_0)
           Scenario.evt_0 (Scenario.intent "k1" 2500)
           (fst Scenario.after_evt_1)).
  reflexivity.
Defined.

Lemma payment_succeeded_first_seen_witness :
  exists f' w',
    Tour.webhook_under [] Scenario.evt_1 Scenario.seeded
    = (f', w', mk_response 200 (Ack false))
    /\ (exists row, In row (Store.payment_intents (db w'))
                    /\ provider_id row = "pi_X"
                    /\ pi_status row = "succeeded")
    /\ (forall row, In row (Store.payment_intents (db w')) ->
                    provider_id row = "pi_X" ->
                    pi_status row = "succeeded")
    /\ accounts (db w')
       = [Scenario.escrow_account;
          mk_account "uuid-0" "Customer cus_1" "customer"]
    /\ account_exists "uuid-0" (db w') = true
    /\ (exists a, In a (accounts (db w')) /\ acc_id a = "acct_escrow"
                  /\ acc_type a = "platform_escrow")
    /\ filter (fun a => acc_type a =? "platform_escrow") (accounts (db w'))
       = [Scenario.escrow_account]
    /\ transactions (db w')
       = [mk_transaction "uuid-0" "acct_escrow" 2500 "usd" "pi_X"]
    /\ webhook_events (db w')
       = [mk_webhook_event "evt_1" "payment_intent.succeeded"
            "6b86b273ff34fce1"]
    /\ has_processed "evt_1" (db w') = true.
Proof.
  apply (payment_succeeded_first_seen
           Scenario.constructEvent Scenario.secret Scenario.sha256_hex
           Scenario.paymentIntents_create Scenario.randomUUID
           [] Scenario.evt_1 Scenario.seeded Tour.payment_event
           "acct_escrow" []).
  - reflexivity.
  - reflexivity.
  - reflexivity.
  - reflexivity.
  - reflexivity.
Defined.

Lemma created_intent_is_found_witness :
  answer_of (Tour.create_under [] (Scenario.intent "k1" 2500)
               Tour.mirrored)
  = mk_response 200 (JsonIntent Scenario.stored_k1)
  /\ payment_status
       (snd (get_payments "pi_k1"
               (world_of (Tour.create_under [] (Scenario.intent "k1" 2500)
                            Tour.mirrored)))) = 200
  /\ snd (get_payments "pi_k1"
            (world_of (Tour.create_under [] (Scenario.intent "k1" 2500)
                         Tour.mirrored)))
     = mk_payment_response 200
         (PaymentRow
            (mk_payment_view "pi_k1" 700 "eur" "requires_action")).
Proof.
  apply (created_intent_is_found
           Scenario.paymentIntents_create Scenario.randomUUID
           [] (Scenario.intent "k1" 2500) Tour.mirrored Tour.answer_k1).
  - reflexivity.
  - split; reflexivity.
  - reflexivity.
  - reflexivity.
Defined.

Lemma origins_round_trip_witness :
  cors_origin_option (Some "https://app.example,https://admin.example")
  = OriginList Tour.app_origins.
Proof.
  apply (origins_round_trip Tour.app_origins).
  - repeat constructor; discriminate.
  - discriminate.
Defined.
